(** * Shop API: checkout and product administration

    A shallow embedding of [src/main.py] and of the pydantic models of
    [src/schemas.py].  The MongoDB collections [db["product"]] and
    [db["order"]] are finite maps keyed by [_id]; every endpoint is a
    function from the store to a result and a new store, so that the
    effects of a request which raises half-way remain visible. *)

From Stdlib Require Import ZArith Lia.
From stdpp Require Import base option list strings gmap fin_maps.

Local Open Scope Z_scope.

(** ** Python values and exceptions *)

(** A key of a stored document, or an attribute of a pydantic model with
    [exclude_unset]: absent, present with value [None], or present with a
    value of the declared type. *)
Inductive field (T : Type) : Type :=
| Missing
| Null
| Has (v : T).
Arguments Missing {T}.
Arguments Null {T}.
Arguments Has {T} v.

(** [d.get(k)]: [None] when the key is absent or holds [None]. *)
Definition get {T} (f : field T) : option T :=
  match f with
  | Has v => Some v
  | Missing | Null => None
  end.

(** [d.get(k, default)]: the default stands in for an absent key only. *)
Definition get_default {T} (f : field T) (default : T) : option T :=
  match f with
  | Missing => Some default
  | Null => None
  | Has v => Some v
  end.

(** [str(x)] inside an f-string, for an optional string. *)
Definition py_str (o : option string) : string :=
  match o with
  | Some s => s
  | None => "None"
  end.

(** The exceptions that the handlers raise or let escape. *)
Inductive exn : Type :=
| HTTPException (status_code : Z) (detail : string)
| TypeError          (* an operator applied to None *)
| AttributeError     (* attribute access on None *)
| ValidationError    (* pydantic: a model constraint is violated *)
| InvalidId          (* bson: ObjectId() outside a try block *)
| WriteError         (* MongoDB: $inc on a non-numeric value *)
| OverflowError      (* an int too large for a float or for a BSON integer *)
| DuplicateKeyError. (* MongoDB: insert under an _id already in use *)

Inductive result (A : Type) : Type :=
| Ok (a : A)
| Raise (e : exn).
Arguments Ok {A} a.
Arguments Raise {A} e.

(** The names the specification gives to the four request errors. *)
Definition InvalidReference_checkout (id : string) : exn :=
  HTTPException 400 ("Invalid product id: " +:+ id).
Definition NotFound_checkout (id : string) : exn :=
  HTTPException 404 ("Product not found: " +:+ id).
Definition InsufficientStock (title : option string) : exn :=
  HTTPException 400 ("Insufficient stock for " +:+ py_str title).
Definition InvalidReference_update : exn :=
  HTTPException 400 "Invalid product id".
Definition NoFieldsToUpdate : exn :=
  HTTPException 400 "No fields to update".
Definition NotFound_update : exn :=
  HTTPException 404 "Product not found".

(** ** Interfaces of the libraries the handlers call *)

(** Python's [float].  The handlers use the literal [0.0], the conversion
    of an [int], [+], [*], [round(x, 2)] and, through the [ge=0]
    constraints of the schemas, the test [x >= 0].  The four laws are
    the facts about binary64 arithmetic that the handlers rely on: sums
    and roundings of non-negative numbers are non-negative, and zero
    rounds to zero.  An [int] converts to a float when it fits,
    [f_fits]; beyond the range of the floats the conversion raises
    [OverflowError], and [f_of_int] is not looked at. *)
Class PyFloat (F : Type) : Type := {
  f_zero : F;
  f_fits : Z → bool;
  f_of_int : Z → F;
  f_add : F → F → F;
  f_mul : F → F → F;
  f_round2 : F → F;
  f_ge0 : F → bool;
  f_ge0_zero : f_ge0 f_zero = true;
  f_ge0_add a b : f_ge0 a = true → f_ge0 b = true → f_ge0 (f_add a b) = true;
  f_ge0_round2 a : f_ge0 a = true → f_ge0 (f_round2 a) = true;
  f_round2_zero : f_round2 f_zero = f_zero
}.

(** [bson.ObjectId]: [ObjectId(s)] parses a string and raises when it
    is malformed; [str(oid)] prints an identifier. *)
Class Bson (ObjectId : Type) `{Countable ObjectId} : Type := {
  ObjectId_of_str : string → option ObjectId;
  str_of_ObjectId : ObjectId → string
}.

(** Timestamps, as seconds since the epoch. *)
Definition Timestamp : Type := Z.

(** ** Schemas *)

(** A document of the [product] collection.  Each key of the [Product]
    schema, and the two timestamps, may be absent, null or set; the same
    shape serves for the argument of [$set], where [Missing] marks a key
    that the update does not mention. *)
Module Product.
Record t (F : Type) : Type := mk {
  title : field string;
  description : field string;
  price : field F;
  category : field string;
  stock : field Z;
  image_url : field string;
  in_stock : field bool;
  created_at : field Timestamp;
  updated_at : field Timestamp
}.
Arguments mk {F}.
Arguments title {F}.
Arguments description {F}.
Arguments price {F}.
Arguments category {F}.
Arguments stock {F}.
Arguments image_url {F}.
Arguments in_stock {F}.
Arguments created_at {F}.
Arguments updated_at {F}.
End Product.

(** [ProductCreate]: the request body of [POST /admin/products], after
    FastAPI validated it against the [Product] schema. *)
Module ProductCreate.
Record t (F : Type) : Type := mk {
  title : string;
  description : option string;
  price : F;
  category : string;
  stock : Z;
  image_url : option string;
  in_stock : bool
}.
Arguments mk {F}.
Arguments title {F}.
Arguments description {F}.
Arguments price {F}.
Arguments category {F}.
Arguments stock {F}.
Arguments image_url {F}.
Arguments in_stock {F}.
End ProductCreate.

(** [ProductUpdate]: every attribute optional; [Missing] is an attribute
    the request did not set. *)
Module ProductUpdate.
Record t (F : Type) : Type := mk {
  title : field string;
  description : field string;
  price : field F;
  category : field string;
  stock : field Z;
  image_url : field string;
  in_stock : field bool
}.
Arguments mk {F}.
Arguments title {F}.
Arguments description {F}.
Arguments price {F}.
Arguments category {F}.
Arguments stock {F}.
Arguments image_url {F}.
Arguments in_stock {F}.
End ProductUpdate.

Module OrderItem.
Record t (F : Type) : Type := mk {
  product_id : string;
  title : string;
  price : F;
  quantity : Z;
  subtotal : F
}.
Arguments mk {F}.
Arguments product_id {F}.
Arguments title {F}.
Arguments price {F}.
Arguments quantity {F}.
Arguments subtotal {F}.
End OrderItem.

Module Order.
Record t (F : Type) : Type := mk {
  buyer_name : option string;
  buyer_email : option string;
  items : list (OrderItem.t F);
  total : F;
  status : string
}.
Arguments mk {F}.
Arguments buyer_name {F}.
Arguments buyer_email {F}.
Arguments items {F}.
Arguments total {F}.
Arguments status {F}.
End Order.

Module CartItem.
Record t : Type := mk {
  product_id : string;
  quantity : Z
}.
End CartItem.

Module CheckoutRequest.
Record t : Type := mk {
  items : list CartItem.t;
  buyer_name : option string;
  buyer_email : option string
}.
End CheckoutRequest.

(** The body of the response of [POST /checkout]. *)
Module CheckoutResponse.
Record t (F : Type) : Type := mk {
  order_id : string;
  total : F
}.
Arguments mk {F}.
Arguments order_id {F}.
Arguments total {F}.
End CheckoutResponse.

(** A document of the [order] collection. *)
Module OrderDoc.
Record t (F : Type) : Type := mk {
  data : Order.t F;
  created_at : Timestamp
}.
Arguments mk {F}.
Arguments data {F}.
Arguments created_at {F}.
End OrderDoc.

(** ** The store and the handlers *)

Section Shop.
Context {F : Type} `{PyFloat F}.
Context {ObjectId : Type} `{Bson ObjectId}.

(** The two collections of the database. *)
Record Db : Type := mkDb {
  product : gmap ObjectId (Product.t F);
  order : gmap ObjectId (OrderDoc.t F)
}.

(** *** Pydantic constructors *)

(** [OrderItem(...)]: [title] must be a string, [price >= 0],
    [quantity >= 1] and [subtotal >= 0]. *)
Definition OrderItem_new (product_id : string) (title : option string)
    (price : F) (quantity : Z) (subtotal : F) : result (OrderItem.t F) :=
  match title with
  | None => Raise ValidationError
  | Some title =>
      if f_ge0 price && (1 <=? quantity) && f_ge0 subtotal
      then Ok (OrderItem.mk product_id title price quantity subtotal)
      else Raise ValidationError
  end.

(** [Order(...)]: [total >= 0]; the items are already [OrderItem]s. *)
Definition Order_new (buyer_name buyer_email : option string)
    (items : list (OrderItem.t F)) (total : F) (status : string)
  : result (Order.t F) :=
  if f_ge0 total
  then Ok (Order.mk buyer_name buyer_email items total status)
  else Raise ValidationError.

(** *** Store operations *)

(** Modelled from the spec: [create_document] of [database.py], which is
    not among the sources.  It inserts one document holding the fields
    of the model and a store-managed creation time under an identifier
    generated for it, and returns that identifier as a string.  The
    identifier [new_id] and the time [now] are inputs; an identifier
    that is already in use makes the insert fail. *)
Definition create_document_order (db : Db) (data : Order.t F)
    (new_id : ObjectId) (now : Timestamp) : result string * Db :=
  match order db !! new_id with
  | Some _ => (Raise DuplicateKeyError, db)
  | None =>
      (Ok (str_of_ObjectId new_id),
       mkDb (product db) (<[new_id := OrderDoc.mk data now]> (order db)))
  end.

(** Modelled from the spec: [create_document] at the [product]
    collection; the server assigns [created_at] and [updated_at]. *)
Definition create_document_product (db : Db) (data : ProductCreate.t F)
    (new_id : ObjectId) (now : Timestamp) : result string * Db :=
  match product db !! new_id with
  | Some _ => (Raise DuplicateKeyError, db)
  | None =>
      let doc :=
        Product.mk
          (Has (ProductCreate.title data))
          (from_option Has Null (ProductCreate.description data))
          (Has (ProductCreate.price data))
          (Has (ProductCreate.category data))
          (Has (ProductCreate.stock data))
          (from_option Has Null (ProductCreate.image_url data))
          (Has (ProductCreate.in_stock data))
          (Has now) (Has now) in
      (Ok (str_of_ObjectId new_id),
       mkDb (<[new_id := doc]> (product db)) (order db))
  end.

(** [$inc] on the key [stock]: an absent key is created with the
    increment, a null one is refused.  Stored stocks are unbounded
    integers.  The increments that [checkout] sends lie between a
    stored stock and its opposite, so the driver encodes them whenever
    it encoded the stocks. *)
Definition inc_stock (d : Z) (stock : field Z) : result (field Z) :=
  match stock with
  | Missing => Ok (Has d)
  | Null => Raise WriteError
  | Has s => Ok (Has (s + d))
  end.

(** [update_one({"_id": oid}, {"$inc": {"stock": d}, "$set": {"in_stock": True}})].
    The update is applied to the matching document as a whole or not at
    all; without a matching document nothing happens. *)
Definition update_one_inc_stock (products : gmap ObjectId (Product.t F))
    (oid : ObjectId) (d : Z) : result (gmap ObjectId (Product.t F)) :=
  match products !! oid with
  | None => Ok products
  | Some prod =>
      match inc_stock d (Product.stock prod) with
      | Raise e => Raise e
      | Ok stock' =>
          Ok (<[oid :=
                  Product.mk (Product.title prod) (Product.description prod)
                    (Product.price prod) (Product.category prod) stock'
                    (Product.image_url prod) (Has true)
                    (Product.created_at prod) (Product.updated_at prod)]>
                products)
      end
  end.

(** One key of [$set]: a key the update mentions replaces the stored one. *)
Definition set_field {T} (new old : field T) : field T :=
  match new with
  | Missing => old
  | _ => new
  end.

Definition apply_set (update prod : Product.t F) : Product.t F :=
  Product.mk
    (set_field (Product.title update) (Product.title prod))
    (set_field (Product.description update) (Product.description prod))
    (set_field (Product.price update) (Product.price prod))
    (set_field (Product.category update) (Product.category prod))
    (set_field (Product.stock update) (Product.stock prod))
    (set_field (Product.image_url update) (Product.image_url prod))
    (set_field (Product.in_stock update) (Product.in_stock prod))
    (set_field (Product.created_at update) (Product.created_at prod))
    (set_field (Product.updated_at update) (Product.updated_at prod)).

(** The integers that the driver encodes: those of eight bytes. *)
Definition bson_int (n : Z) : bool :=
  (- 2 ^ 63 <=? n) && (n <? 2 ^ 63).

(** Whether the driver encodes the argument of [$set]: of the keys of a
    product only [stock] holds an [int]. *)
Definition encodes (update : Product.t F) : bool :=
  match Product.stock update with
  | Has n => bson_int n
  | _ => true
  end.

(** [update_one({"_id": oid}, {"$set": update})], with its
    [matched_count].  The driver encodes the update before it sends it,
    and raises [OverflowError] on an [int] of more than eight bytes. *)
Definition update_one_set (products : gmap ObjectId (Product.t F))
    (oid : ObjectId) (update : Product.t F)
  : result (Z * gmap ObjectId (Product.t F)) :=
  if encodes update then
    match products !! oid with
    | None => Ok (0, products)
    | Some prod => Ok (1, <[oid := apply_set update prod]> products)
    end
  else Raise OverflowError.

(** *** [POST /checkout] *)

(** [prod.get("stock", 0) < item.quantity]; comparing [None] with an
    [int] raises. *)
Definition stock_lt (prod : Product.t F) (quantity : Z) : result bool :=
  match get_default (Product.stock prod) 0 with
  | None => Raise TypeError
  | Some s => Ok (s <? quantity)
  end.

(** [float(prod.get("price", 0))] *)
Definition price_of (prod : Product.t F) : result F :=
  match Product.price prod with
  | Missing => Ok (f_of_int 0)
  | Null => Raise TypeError
  | Has p => Ok p
  end.

(** [x * n] for a float [x] and an int [n]: the int is converted first. *)
Definition mul_int (x : F) (n : Z) : result F :=
  if f_fits n then Ok (f_mul x (f_of_int n)) else Raise OverflowError.

(** The body of the first loop of [checkout] for one cart line, up to
    the [OrderItem] it builds. *)
Definition validate_line (products : gmap ObjectId (Product.t F))
    (item : CartItem.t) : result (OrderItem.t F) :=
  match ObjectId_of_str (CartItem.product_id item) with
  | None => Raise (InvalidReference_checkout (CartItem.product_id item))
  | Some oid =>
      match products !! oid with
      | None => Raise (NotFound_checkout (CartItem.product_id item))
      | Some prod =>
          match stock_lt prod (CartItem.quantity item) with
          | Raise e => Raise e
          | Ok true => Raise (InsufficientStock (get (Product.title prod)))
          | Ok false =>
              match price_of prod with
              | Raise e => Raise e
              | Ok price =>
                  match mul_int price (CartItem.quantity item) with
                  | Raise e => Raise e
                  | Ok subtotal =>
                      OrderItem_new (str_of_ObjectId oid) (get (Product.title prod))
                        price (CartItem.quantity item) subtotal
                  end
              end
          end
      end
  end.

(** The first loop: [order_items] and [total] are the accumulators. *)
Fixpoint validate_loop (products : gmap ObjectId (Product.t F))
    (items : list CartItem.t) (order_items : list (OrderItem.t F)) (total : F)
  : result (list (OrderItem.t F) * F) :=
  match items with
  | [] => Ok (order_items, total)
  | item :: rest =>
      match validate_line products item with
      | Raise e => Raise e
      | Ok oi =>
          validate_loop products rest (order_items ++ [oi])
            (f_add total (OrderItem.subtotal oi))
      end
  end.

(** The second loop.  It returns the collection as it stands when the
    loop ends or raises. *)
Fixpoint decrement_loop (products : gmap ObjectId (Product.t F))
    (items : list CartItem.t) : gmap ObjectId (Product.t F) * option exn :=
  match items with
  | [] => (products, None)
  | item :: rest =>
      match ObjectId_of_str (CartItem.product_id item) with
      | None => (products, Some InvalidId)
      | Some oid =>
          match update_one_inc_stock products oid (- CartItem.quantity item) with
          | Raise e => (products, Some e)
          | Ok products' => decrement_loop products' rest
          end
      end
  end.

Definition checkout (db : Db) (payload : CheckoutRequest.t)
    (new_id : ObjectId) (now : Timestamp)
  : result (CheckoutResponse.t F) * Db :=
  match validate_loop (product db) (CheckoutRequest.items payload) [] f_zero with
  | Raise e => (Raise e, db)
  | Ok (order_items, total) =>
      match decrement_loop (product db) (CheckoutRequest.items payload) with
      | (products', Some e) => (Raise e, mkDb products' (order db))
      | (products', None) =>
          let db' := mkDb products' (order db) in
          match Order_new (CheckoutRequest.buyer_name payload)
                  (CheckoutRequest.buyer_email payload)
                  order_items (f_round2 total) "paid" with
          | Raise e => (Raise e, db')
          | Ok order =>
              match create_document_order db' order new_id now with
              | (Raise e, db'') => (Raise e, db'')
              | (Ok order_id, db'') =>
                  (Ok (CheckoutResponse.mk order_id (Order.total order)), db'')
              end
          end
      end
  end.

(** *** [POST /admin/products] and [PATCH /admin/products/{product_id}] *)

Definition create_product (db : Db) (payload : ProductCreate.t F)
    (new_id : ObjectId) (now : Timestamp) : result string * Db :=
  create_document_product db payload new_id now.

(** [payload.model_dump(exclude_unset=True)], as a partial document. *)
Definition model_dump (payload : ProductUpdate.t F) : Product.t F :=
  Product.mk
    (ProductUpdate.title payload) (ProductUpdate.description payload)
    (ProductUpdate.price payload) (ProductUpdate.category payload)
    (ProductUpdate.stock payload) (ProductUpdate.image_url payload)
    (ProductUpdate.in_stock payload) Missing Missing.

Definition is_missing {T} (f : field T) : bool :=
  match f with
  | Missing => true
  | _ => false
  end.

(** [not update]: the dictionary has no key. *)
Definition is_empty (update : Product.t F) : bool :=
  is_missing (Product.title update) && is_missing (Product.description update)
  && is_missing (Product.price update) && is_missing (Product.category update)
  && is_missing (Product.stock update) && is_missing (Product.image_url update)
  && is_missing (Product.in_stock update) && is_missing (Product.created_at update)
  && is_missing (Product.updated_at update).

(** [update["updated_at"] = v]: the key is present afterwards, with
    [None] when [v] is [None]. *)
Definition set_updated_at (update : Product.t F) (v : option Timestamp)
  : Product.t F :=
  Product.mk
    (Product.title update) (Product.description update)
    (Product.price update) (Product.category update)
    (Product.stock update) (Product.image_url update)
    (Product.in_stock update) (Product.created_at update)
    (from_option Has Null v).

Definition update_product (db : Db) (product_id : string)
    (payload : ProductUpdate.t F) : result bool * Db :=
  match ObjectId_of_str product_id with
  | None => (Raise InvalidReference_update, db)
  | Some oid =>
      let update := model_dump payload in
      if is_empty update then (Raise NoFieldsToUpdate, db)
      else
        match product db !! oid with
        | None => (Raise AttributeError, db)
        | Some found =>
            let update := set_updated_at update (get (Product.updated_at found)) in
            match update_one_set (product db) oid update with
            | Raise e => (Raise e, db)
            | Ok (matched_count, products') =>
                let db' := mkDb products' (order db) in
                if matched_count =? 0 then (Raise NotFound_update, db')
                else (Ok true, db')
            end
        end
  end.

(** *** The requests of the HTTP surface *)

(** The reading endpoints ([GET /], [GET /products], [GET /admin/orders]
    and [GET /test]) only call [find], [sort] and
    [list_collection_names]; they are represented by their effect on
    the store, which is none. *)
Inductive Request : Type :=
| GET_root
| GET_products (q category : option string)
| POST_checkout (payload : CheckoutRequest.t) (new_id : ObjectId) (now : Timestamp)
| POST_admin_products (payload : ProductCreate.t F) (new_id : ObjectId) (now : Timestamp)
| PATCH_admin_products (product_id : string) (payload : ProductUpdate.t F)
| GET_admin_orders
| GET_test.

(** The store after a request has been served. *)
Definition serve (db : Db) (r : Request) : Db :=
  match r with
  | POST_checkout payload new_id now => snd (checkout db payload new_id now)
  | POST_admin_products payload new_id now => snd (create_product db payload new_id now)
  | PATCH_admin_products product_id payload => snd (update_product db product_id payload)
  | GET_root | GET_products _ _ | GET_admin_orders | GET_test => db
  end.

Definition serve_all (db : Db) (rs : list Request) : Db :=
  foldl serve db rs.

(** *** Vocabulary of the statements *)

Implicit Types (products : gmap ObjectId (Product.t F)).
Implicit Types (item : CartItem.t) (items : list CartItem.t).
Implicit Types (oi : OrderItem.t F) (ois : list (OrderItem.t F)).
Implicit Types (prod : Product.t F) (oid : ObjectId).

(** The running total of [checkout]: [total = 0.0] and then
    [total += subtotal] for each line, in cart order. *)
Definition sum_subtotals (total : F) ois : F :=
  foldl (fun acc oi => f_add acc (OrderItem.subtotal oi)) total ois.

(** What a validated line records about the product it names: the
    identifier, title and price read from the store when the line was
    validated, the quantity of the line, and their product. *)
Definition snapshot_of products item oi : Prop :=
  ∃ oid prod title price,
    ObjectId_of_str (CartItem.product_id item) = Some oid ∧
    products !! oid = Some prod ∧
    get (Product.title prod) = Some title ∧
    price_of prod = Ok price ∧
    oi = OrderItem.mk (str_of_ObjectId oid) title price (CartItem.quantity item)
           (f_mul price (f_of_int (CartItem.quantity item))).

Definition names_product item oid : bool :=
  bool_decide (ObjectId_of_str (CartItem.product_id item) = Some oid).

(** Whether some line of the cart names the product [oid], and the sum
    of the quantities of the lines that do. *)
Definition is_ordered items oid : bool :=
  existsb (fun item => names_product item oid) items.

Definition ordered_quantity items oid : Z :=
  foldr (fun item acc =>
           if names_product item oid then CartItem.quantity item + acc else acc)
        0 items.

(** The stock of a document whose key [stock] may be absent. *)
Definition stock_or_0 prod : Z :=
  match Product.stock prod with
  | Has s => s
  | _ => 0
  end.

(** A product document after [q] units have been taken from its stock. *)
Definition purchased prod (q : Z) : Product.t F :=
  Product.mk (Product.title prod) (Product.description prod)
    (Product.price prod) (Product.category prod)
    (Has (stock_or_0 prod - q))
    (Product.image_url prod) (Has true)
    (Product.created_at prod) (Product.updated_at prod).

Definition after_checkout items oid prod : Product.t F :=
  if is_ordered items oid then purchased prod (ordered_quantity items oid)
  else prod.

(** What validation guarantees about a line when the commit phase
    starts. *)
Definition committable products item : Prop :=
  ∃ oid, ObjectId_of_str (CartItem.product_id item) = Some oid ∧
         ∀ prod, products !! oid = Some prod → Product.stock prod ≠ Null.

(** Two product documents that differ at most in [stock] and
    [in_stock]. *)
Definition same_listing prod prod' : Prop :=
  Product.title prod' = Product.title prod ∧
  Product.description prod' = Product.description prod ∧
  Product.price prod' = Product.price prod ∧
  Product.category prod' = Product.category prod ∧
  Product.image_url prod' = Product.image_url prod ∧
  Product.created_at prod' = Product.created_at prod ∧
  Product.updated_at prod' = Product.updated_at prod.

(** Two product collections with the same identifiers and, under each,
    the same listing. *)
Definition listings_kept products products' : Prop :=
  ∀ oid, option_Forall2 same_listing (products !! oid) (products' !! oid).

(** The product document that [update_product] stores in place of
    [prod]. *)
Definition patched (payload : ProductUpdate.t F) prod : Product.t F :=
  Product.mk
    (set_field (ProductUpdate.title payload) (Product.title prod))
    (set_field (ProductUpdate.description payload) (Product.description prod))
    (set_field (ProductUpdate.price payload) (Product.price prod))
    (set_field (ProductUpdate.category payload) (Product.category prod))
    (set_field (ProductUpdate.stock payload) (Product.stock prod))
    (set_field (ProductUpdate.image_url payload) (Product.image_url prod))
    (set_field (ProductUpdate.in_stock payload) (Product.in_stock prod))
    (Product.created_at prod)
    (from_option Has Null (get (Product.updated_at prod))).

(** The request that sets the attributes of [later] and, where [later]
    sets none, those of [earlier]. *)
Definition merge_updates (later earlier : ProductUpdate.t F) : ProductUpdate.t F :=
  ProductUpdate.mk
    (set_field (ProductUpdate.title later) (ProductUpdate.title earlier))
    (set_field (ProductUpdate.description later) (ProductUpdate.description earlier))
    (set_field (ProductUpdate.price later) (ProductUpdate.price earlier))
    (set_field (ProductUpdate.category later) (ProductUpdate.category earlier))
    (set_field (ProductUpdate.stock later) (ProductUpdate.stock earlier))
    (set_field (ProductUpdate.image_url later) (ProductUpdate.image_url earlier))
    (set_field (ProductUpdate.in_stock later) (ProductUpdate.in_stock earlier)).

(** The identifiers that the lines of a cart parse to. *)
Definition parsed_ids items : list (option ObjectId) :=
  map (fun item => ObjectId_of_str (CartItem.product_id item)) items.

End Shop.

Arguments Db F ObjectId {_ _}.
Arguments Request F ObjectId : clear implicits.

(** ** Serialisation of documents *)

Section Serialisation.
Context {V : Type}.

(** The builtin [str], from a value to the string value that prints it. *)
Variable str : V → V.

(** [to_serializable(doc)], on a document read as a dictionary or on
    [None].  A falsy [doc] ([None] or the empty dictionary) is returned
    as it is; otherwise the copy [d] loses its key ["_id"], if it has
    one, and gains the key ["id"] with the printed identifier. *)
Definition to_serializable (doc : option (gmap string V))
  : option (gmap string V) :=
  match doc with
  | None => None
  | Some d =>
      if decide (size d = 0%nat) then Some d
      else
        match d !! "_id" with
        | Some v => Some (<["id" := str v]> (delete "_id" d))
        | None => Some d
        end
  end.

End Serialisation.

(** ** Instances for evaluation *)

(** Amounts with two decimals, counted in hundredths: [999] is 9.99.
    Sums, products by an integer and roundings to two decimals are
    exact on them. *)
#[export] Instance cents : PyFloat Z.
Proof.
  refine {| f_zero := 0;
            f_fits := fun n => Z.abs n <? 2 ^ 1024 - 2 ^ 970;
            f_of_int := fun n => 100 * n;
            f_add := Z.add;
            f_mul := fun a b => a * b / 100;
            f_round2 := fun a => a;
            f_ge0 := fun a => 0 <=? a |}.
  - reflexivity.
  - intros a b Ha Hb. apply Z.leb_le in Ha, Hb. apply Z.leb_le. lia.
  - intros a Ha. exact Ha.
  - reflexivity.
Defined.

Definition is_hex_digit (c : Ascii.ascii) : bool :=
  let n := Ascii.N_of_ascii c in
  ((48 <=? n) && (n <=? 57) || (65 <=? n) && (n <=? 70)
   || (97 <=? n) && (n <=? 102))%N.

Definition lower_hex (c : Ascii.ascii) : Ascii.ascii :=
  let n := Ascii.N_of_ascii c in
  if ((65 <=? n) && (n <=? 70))%N then Ascii.ascii_of_N (n + 32) else c.

Fixpoint all_hex (s : string) : bool :=
  match s with
  | EmptyString => true
  | String c s' => is_hex_digit c && all_hex s'
  end.

Fixpoint lower (s : string) : string :=
  match s with
  | EmptyString => EmptyString
  | String c s' => String (lower_hex c) (lower s')
  end.

(** Identifiers written as 24 hexadecimal digits and printed in lower
    case. *)
#[export] Instance hex24 : Bson string := {|
  ObjectId_of_str s :=
    if (String.length s =? 24)%nat && all_hex s then Some (lower s) else None;
  str_of_ObjectId oid := oid
|}.

(** A shop with one product, nine dollars ninety-nine with five units in
    stock, and no order yet. *)
Module Sample.
Definition P1 : string := "64b7f0a1c2d3e4f5a6b7c8d9".
Definition P2 : string := "64b7f0a1c2d3e4f5a6b7c8da".
Definition O1 : string := "64b7f0a1c2d3e4f5a6b7c8e0".

Definition widget : Product.t Z :=
  Product.mk (Has "Widget") Null (Has 999) (Has "tools") (Has 5) Null
    (Has true) (Has 1000) (Has 1000).

Definition shop : Db Z string := mkDb {[ P1 := widget ]} ∅.

Definition line (product_id : string) (quantity : Z) : CartItem.t :=
  CartItem.mk product_id quantity.

Definition cart (items : list CartItem.t) : CheckoutRequest.t :=
  CheckoutRequest.mk items None None.

(** The order of two widgets, bought at time 2000. *)
Definition two_widgets : OrderDoc.t Z :=
  OrderDoc.mk
    (Order.mk None None [OrderItem.mk P1 "Widget" 999 2 1998] 1998 "paid") 2000.

(** The shop after that purchase. *)
Definition shop_paid : Db Z string :=
  mkDb
    {[ P1 := Product.mk (Has "Widget") Null (Has 999) (Has "tools") (Has 3) Null
               (Has true) (Has 1000) (Has 1000) ]}
    {[ O1 := two_widgets ]}.

(** A price and title change. *)
Definition reprice : ProductUpdate.t Z :=
  ProductUpdate.mk (Has "Gadget") Missing (Has 1299) Missing Missing Missing Missing.

(** A second product, and one whose document has no price; a market
    with the three of them. *)
Definition P3 : string := "64b7f0a1c2d3e4f5a6b7c8db".

Definition gizmo : Product.t Z :=
  Product.mk (Has "Gizmo") (Has "A small gizmo") (Has 250) (Has "toys") (Has 10) Null
    (Has true) (Has 1500) (Has 1500).

Definition sample : Product.t Z :=
  Product.mk (Has "Sample") Null Missing (Has "toys") (Has 4) Null
    (Has true) (Has 1600) (Has 1600).

Definition market : Db Z string :=
  mkDb {[ P1 := widget; P2 := gizmo; P3 := sample ]} ∅.

(** An update that sets the stock to null, and one that sets it to 7. *)
Definition null_stock : ProductUpdate.t Z :=
  ProductUpdate.mk Missing Missing Missing Missing Null Missing Missing.

Definition restock : ProductUpdate.t Z :=
  ProductUpdate.mk Missing Missing Missing Missing (Has 7) Missing Missing.


(** A document as [find] returns it, with strings for values, and a
    printer that marks what it prints. *)
Definition widget_doc : gmap string string :=
  {[ "_id" := "oid:64b7f0a1c2d3e4f5a6b7c8d9"; "title" := "Widget"; "id" := "old" ]}.

Definition print (v : string) : string := "str:" +:+ v.
End Sample.

(** ** Properties of the handlers *)

Section Properties.
Context {F : Type} `{PyFloat F}.
Context {ObjectId : Type} `{Bson ObjectId}.

Implicit Types (db : Db F ObjectId) (products : gmap ObjectId (Product.t F)).
Implicit Types (item : CartItem.t) (items : list CartItem.t).
Implicit Types (oi : OrderItem.t F) (ois : list (OrderItem.t F)).
Implicit Types (prod : Product.t F) (oid new_id : ObjectId).

Lemma OrderItem_new_Ok product_id title price quantity subtotal oi :
  OrderItem_new product_id title price quantity subtotal = Ok oi →
  ∃ t, title = Some t ∧ oi = OrderItem.mk product_id t price quantity subtotal ∧
       f_ge0 price = true ∧ 1 ≤ quantity ∧ f_ge0 subtotal = true.
Proof.
  unfold OrderItem_new. destruct title as [t|]; [|discriminate].
  destruct (f_ge0 price) eqn:Hp; [|discriminate].
  destruct (1 <=? quantity) eqn:Hq; [|discriminate].
  destruct (f_ge0 subtotal) eqn:Hs; [|discriminate].
  simpl. intros [= <-]. exists t. apply Z.leb_le in Hq. auto.
Qed.

Lemma mul_int_Ok (x : F) (n : Z) (y : F) :
  mul_int x n = Ok y → f_fits n = true ∧ y = f_mul x (f_of_int n).
Proof.
  unfold mul_int. destruct (f_fits n); [|discriminate]. by intros [= <-].
Qed.

Lemma validate_line_Ok products item oi :
  validate_line products item = Ok oi →
  snapshot_of products item oi ∧ 1 ≤ CartItem.quantity item ∧
  f_ge0 (OrderItem.subtotal oi) = true.
Proof.
  unfold validate_line, snapshot_of.
  destruct (ObjectId_of_str _) as [oid|] eqn:Hoid; [|discriminate].
  destruct (products !! oid) as [prod|] eqn:Hprod; [|discriminate].
  destruct (stock_lt prod _) as [[]|]; try discriminate.
  destruct (price_of prod) as [price|] eqn:Hprice; [|discriminate].
  destruct (mul_int price _) as [subtotal|] eqn:Hmul; [|discriminate].
  apply mul_int_Ok in Hmul as [_ ->].
  intros Hnew. apply OrderItem_new_Ok in Hnew as (t & Ht & -> & _ & Hq & Hs).
  split; [by exists oid, prod, t, price|]. by split.
Qed.

Lemma validate_loop_Ok products items acc total ois total' :
  validate_loop products items acc total = Ok (ois, total') →
  ∃ new, ois = acc ++ new ∧ total' = sum_subtotals total new ∧
         Forall2 (fun item oi => validate_line products item = Ok oi) items new.
Proof.
  revert acc total. induction items as [|item rest IH]; intros acc total; simpl.
  - intros [= <- <-]. exists []. by rewrite app_nil_r.
  - destruct (validate_line products item) as [oi|] eqn:Hline; [|discriminate].
    intros Hrest. apply IH in Hrest as (new & -> & -> & Hall).
    exists (oi :: new). rewrite <- app_assoc. split; [done|]. split; [done|].
    by constructor.
Qed.

Lemma validate_loop_Raise products items acc total pre item post e :
  items = pre ++ item :: post →
  Forall (fun i => ∃ oi, validate_line products i = Ok oi) pre →
  validate_line products item = Raise e →
  validate_loop products items acc total = Raise e.
Proof.
  intros -> Hpre. revert acc total.
  induction Hpre as [|i pre [oi Hi] _ IH]; intros acc total Hitem; simpl.
  - by rewrite Hitem.
  - rewrite Hi. by apply IH.
Qed.

(** A line that raises makes the loop raise, with the error of the first
    such line. *)
Lemma validate_loop_elem_of products items acc total item e :
  item ∈ items →
  validate_line products item = Raise e →
  ∃ e', validate_loop products items acc total = Raise e'.
Proof.
  intros Hin Hitem. revert acc total.
  induction Hin as [item rest|item i rest _ IH]; intros acc total; simpl.
  - rewrite Hitem. by eexists.
  - destruct (validate_line products i); [apply IH, Hitem | by eexists].
Qed.

(** *** The commit phase *)

Lemma purchased_purchased prod a b :
  purchased (purchased prod a) b = purchased prod (a + b).
Proof. unfold purchased, stock_or_0. simpl. do 2 f_equal. lia. Qed.

Lemma ordered_quantity_not_ordered items oid :
  is_ordered items oid = false → ordered_quantity items oid = 0.
Proof.
  induction items as [|item rest IH]; simpl; [done|].
  destruct (names_product item oid); simpl; [done | exact IH].
Qed.

(** One step of the second loop on a document whose stock is not null. *)
Lemma update_one_inc_stock_Some products oid prod q :
  products !! oid = Some prod →
  Product.stock prod ≠ Null →
  update_one_inc_stock products oid (- q) = Ok (<[oid := purchased prod q]> products).
Proof.
  intros Hprod Hstock. unfold update_one_inc_stock, purchased, stock_or_0.
  rewrite Hprod. by destruct (Product.stock prod) as [| |s].
Qed.

Lemma update_one_inc_stock_None products oid d :
  products !! oid = None → update_one_inc_stock products oid d = Ok products.
Proof. intros Hprod. unfold update_one_inc_stock. by rewrite Hprod. Qed.

Lemma validate_line_committable products item oi :
  validate_line products item = Ok oi → committable products item.
Proof.
  unfold validate_line, committable, stock_lt.
  destruct (ObjectId_of_str _) as [oid|] eqn:Hoid; [|discriminate].
  destruct (products !! oid) as [prod|] eqn:Hprod; [|discriminate].
  destruct (Product.stock prod) eqn:Hstock; simpl; try discriminate.
  - intros _. exists oid. split; [done|]. intros prod' Hprod'.
    assert (prod' = prod) as -> by congruence. by rewrite Hstock.
  - intros _. exists oid. split; [done|]. intros prod' Hprod'.
    assert (prod' = prod) as -> by congruence. by rewrite Hstock.
Qed.

Lemma decrement_loop_spec products items :
  Forall (committable products) items →
  ∃ products',
    decrement_loop products items = (products', None) ∧
    ∀ oid, products' !! oid = after_checkout items oid <$> products !! oid.
Proof.
  revert products. induction items as [|item rest IH]; intros products Hall; simpl.
  - exists products. split; [done|]. intros oid. unfold after_checkout. simpl.
    by destruct (products !! oid).
  - apply Forall_cons in Hall as [(oid0 & Hoid0 & Hstock) Hrest].
    rewrite Hoid0.
    assert (∀ oid, names_product item oid = bool_decide (oid0 = oid)) as Hnames.
    { intros oid. unfold names_product. rewrite Hoid0.
      apply bool_decide_ext. split; [by intros [= ->] | by intros ->]. }
    destruct (products !! oid0) as [prod0|] eqn:Hprod0.
    + rewrite (update_one_inc_stock_Some _ _ prod0) by auto.
      destruct (IH (<[oid0 := purchased prod0 (CartItem.quantity item)]> products))
        as (products' & -> & Hlookup).
      { eapply Forall_impl; [exact Hrest|]. intros i (oid & Hoid & Hi).
        exists oid. split; [done|]. intros prod.
        destruct (decide (oid0 = oid)) as [->|Hne].
        - rewrite lookup_insert_eq. by intros [= <-].
        - rewrite lookup_insert_ne by done. apply Hi. }
      exists products'. split; [done|]. intros oid. rewrite Hlookup.
      unfold after_checkout. simpl. rewrite Hnames.
      destruct (decide (oid0 = oid)) as [->|Hne].
      * rewrite lookup_insert_eq, Hprod0, bool_decide_eq_true_2 by done. simpl.
        destruct (is_ordered rest oid) eqn:Hordered.
        -- by rewrite purchased_purchased.
        -- by rewrite ordered_quantity_not_ordered, Z.add_0_r.
      * rewrite lookup_insert_ne, bool_decide_eq_false_2 by done. done.
    + rewrite update_one_inc_stock_None by done.
      destruct (IH products Hrest) as (products' & -> & Hlookup).
      exists products'. split; [done|]. intros oid. rewrite Hlookup.
      unfold after_checkout. simpl. rewrite Hnames.
      destruct (decide (oid0 = oid)) as [->|Hne].
      * by rewrite Hprod0.
      * by rewrite bool_decide_eq_false_2 by done.
Qed.

Lemma sum_subtotals_ge0 total ois :
  f_ge0 total = true →
  Forall (fun oi => f_ge0 (OrderItem.subtotal oi) = true) ois →
  f_ge0 (sum_subtotals total ois) = true.
Proof.
  intros Htotal Hall. revert total Htotal.
  induction Hall as [|oi ois Hoi _ IH]; intros total Htotal; simpl; [done|].
  apply IH. by apply f_ge0_add.
Qed.

(** *** [checkout] as a whole *)

Lemma checkout_Raise_validation db payload new_id now e :
  validate_loop (product db) (CheckoutRequest.items payload) [] f_zero = Raise e →
  checkout db payload new_id now = (Raise e, db).
Proof. intros Hloop. unfold checkout. by rewrite Hloop. Qed.

Lemma validate_loop_total_ge0 products items ois total :
  validate_loop products items [] f_zero = Ok (ois, total) →
  f_ge0 (f_round2 total) = true.
Proof.
  intros Hloop. apply validate_loop_Ok in Hloop as (new & _ & -> & Hall).
  apply f_ge0_round2, sum_subtotals_ge0; [apply f_ge0_zero|].
  induction Hall as [|item oi items new Hline _ IH]; constructor; [|done].
  by apply validate_line_Ok in Hline as (_ & _ & ?).
Qed.

(** A cart whose lines all validate is committed and recorded. *)
Lemma checkout_valid_cart db payload new_id now ois total :
  validate_loop (product db) (CheckoutRequest.items payload) [] f_zero
    = Ok (ois, total) →
  order db !! new_id = None →
  ∃ products',
    (∀ oid, products' !! oid =
            after_checkout (CheckoutRequest.items payload) oid <$> product db !! oid) ∧
    checkout db payload new_id now =
      (Ok (CheckoutResponse.mk (str_of_ObjectId new_id) (f_round2 total)),
       mkDb products'
         (<[new_id :=
              OrderDoc.mk
                (Order.mk (CheckoutRequest.buyer_name payload)
                   (CheckoutRequest.buyer_email payload) ois (f_round2 total) "paid")
                now]> (order db))).
Proof.
  intros Hloop Hfresh. unfold checkout. rewrite Hloop.
  destruct (decrement_loop_spec (product db) (CheckoutRequest.items payload))
    as (products' & -> & Hlookup).
  { apply validate_loop_Ok in Hloop as (new & _ & _ & Hall).
    induction Hall as [|item oi items new Hline _ IH]; constructor; [|done].
    by eapply validate_line_committable. }
  exists products'. split; [done|].
  unfold Order_new. rewrite (validate_loop_total_ge0 _ _ _ _ Hloop).
  unfold create_document_order. simpl. by rewrite Hfresh.
Qed.

Lemma checkout_Ok_inv db payload new_id now resp db' :
  checkout db payload new_id now = (Ok resp, db') →
  order db !! new_id = None ∧
  ∃ ois total,
    validate_loop (product db) (CheckoutRequest.items payload) [] f_zero
      = Ok (ois, total).
Proof.
  unfold checkout.
  destruct (validate_loop _ _ _ _) as [[ois total]|]; [|discriminate].
  destruct (decrement_loop _ _) as [products' [e|]]; [discriminate|].
  destruct (Order_new _ _ _ _ _) as [o|]; [|discriminate].
  unfold create_document_order. simpl.
  destruct (order db !! new_id) eqn:Hfresh; [discriminate|].
  intros _. split; [done|]. by exists ois, total.
Qed.

Lemma validate_loop_all_valid products items acc total :
  Forall (fun item => ∃ oi, validate_line products item = Ok oi) items →
  ∃ ois total', validate_loop products items acc total = Ok (ois, total').
Proof.
  intros Hall. revert acc total.
  induction Hall as [|item items [oi Hoi] _ IH]; intros acc total; simpl.
  - by eexists _, _.
  - rewrite Hoi. apply IH.
Qed.

(** C1. When every line of the cart passes validation, [checkout]
    succeeds (the identifier of the new order being unused); the order
    it stores under the new identifier carries the total that the
    response returns; that total is [round(t, 2)] where [t] is the sum,
    from [0.0] and in cart order, of the subtotals of the stored items;
    and each stored item is the snapshot of its cart line: its price is
    the price read from the product at validation, its quantity is the
    quantity of the line, and its subtotal is that price times that
    quantity. *)
Theorem checkout_total_is_rounded_sum db payload new_id now :
  Forall (fun item => ∃ oi, validate_line (product db) item = Ok oi)
    (CheckoutRequest.items payload) →
  order db !! new_id = None →
  ∃ resp db' doc,
    checkout db payload new_id now = (Ok resp, db') ∧
    order db' !! new_id = Some doc ∧
    Order.total (OrderDoc.data doc) = CheckoutResponse.total resp ∧
    CheckoutResponse.total resp =
      f_round2 (sum_subtotals f_zero (Order.items (OrderDoc.data doc))) ∧
    Forall2 (snapshot_of (product db)) (CheckoutRequest.items payload)
      (Order.items (OrderDoc.data doc)) ∧
    Forall (fun oi => OrderItem.subtotal oi =
                      f_mul (OrderItem.price oi) (f_of_int (OrderItem.quantity oi)))
      (Order.items (OrderDoc.data doc)).
Proof.
  intros Hvalid Hfresh.
  destruct (validate_loop_all_valid _ _ [] f_zero Hvalid) as (ois & total & Hloop).
  destruct (checkout_valid_cart _ _ _ now _ _ Hloop Hfresh) as (products' & _ & Heq).
  eexists _, _, _. split; [exact Heq|]. simpl.
  split; [apply lookup_insert_eq|]. simpl.
  apply validate_loop_Ok in Hloop as (new & -> & -> & Hall). simpl.
  split; [done|]. split; [done|].
  assert (Forall2 (snapshot_of (product db)) (CheckoutRequest.items payload) new)
    as Hsnap.
  { eapply Forall2_impl; [exact Hall|]. intros item oi Hline.
    by apply validate_line_Ok in Hline as (? & _). }
  split; [done|].
  clear Hall Heq Hvalid. induction Hsnap as [|item oi items new Hoi _ IH]; [constructor|].
  constructor; [|exact IH].
  by destruct Hoi as (oid & prod & title & price & _ & _ & _ & _ & ->).
Qed.

Lemma checkout_Raise_validation_elem_of db payload new_id now item e :
  item ∈ CheckoutRequest.items payload →
  validate_line (product db) item = Raise e →
  ∃ e', checkout db payload new_id now = (Raise e', db).
Proof.
  intros Hin Hline.
  destruct (validate_loop_elem_of (product db) _ [] f_zero _ _ Hin Hline) as [e' He'].
  exists e'. by apply checkout_Raise_validation.
Qed.

(** C2. If some line of the cart fails validation -- with
    [InvalidReference], [NotFound], [InsufficientStock] or any other
    exception -- then [checkout] raises and returns the store it was
    given: the stock of every product is as before and no order has been
    created. *)
Theorem checkout_validation_failure_aborts db payload new_id now item e :
  item ∈ CheckoutRequest.items payload →
  validate_line (product db) item = Raise e →
  ∃ e', checkout db payload new_id now = (Raise e', db).
Proof. apply checkout_Raise_validation_elem_of. Qed.

(** C4. The lines of the cart are validated in input order and the
    first line that fails decides the error of [checkout], which leaves
    the store as it was.  On that line the checks come in this order: an
    identifier that does not parse gives [InvalidReference] with the
    identifier in its message; an identifier that parses but names no
    product gives [NotFound] with the identifier; a product whose stock
    is below the quantity of the line gives [InsufficientStock] with the
    title of the product. *)
Theorem checkout_first_failing_line db payload new_id now pre item post :
  CheckoutRequest.items payload = pre ++ item :: post →
  Forall (fun i => ∃ oi, validate_line (product db) i = Ok oi) pre →
  (ObjectId_of_str (CartItem.product_id item) = None →
   checkout db payload new_id now =
     (Raise (HTTPException 400 ("Invalid product id: " +:+ CartItem.product_id item)), db)) ∧
  (∀ oid,
     ObjectId_of_str (CartItem.product_id item) = Some oid →
     product db !! oid = None →
     checkout db payload new_id now =
       (Raise (HTTPException 404 ("Product not found: " +:+ CartItem.product_id item)), db)) ∧
  (∀ oid prod s,
     ObjectId_of_str (CartItem.product_id item) = Some oid →
     product db !! oid = Some prod →
     get_default (Product.stock prod) 0 = Some s →
     s < CartItem.quantity item →
     checkout db payload new_id now =
       (Raise (HTTPException 400
                 ("Insufficient stock for " +:+ py_str (get (Product.title prod)))), db)) ∧
  (∀ e, validate_line (product db) item = Raise e →
        checkout db payload new_id now = (Raise e, db)).
Proof.
  intros Hitems Hpre.
  assert (∀ e, validate_line (product db) item = Raise e →
               checkout db payload new_id now = (Raise e, db)) as Hfirst.
  { intros e Hline. apply checkout_Raise_validation.
    by eapply validate_loop_Raise. }
  split; [|split; [|split]]; [| | |done].
  - intros Hoid. apply Hfirst. unfold validate_line. by rewrite Hoid.
  - intros oid Hoid Hprod. apply Hfirst. unfold validate_line.
    by rewrite Hoid, Hprod.
  - intros oid prod s Hoid Hprod Hstock Hlt. apply Hfirst.
    unfold validate_line, stock_lt. rewrite Hoid, Hprod, Hstock.
    by rewrite (proj2 (Z.ltb_lt _ _) Hlt).
Qed.

(** C5. When every line of the cart validates, [checkout] succeeds (the
    identifier of the new order being unused).  Every product that the
    cart names has its stock lowered by the quantities of the lines that
    name it -- by the quantity of the line when there is one such line --
    and its [in_stock] set to true whatever the resulting stock; its
    other keys, and the products the cart does not name, are unchanged.
    The order collection gains exactly one document, under the new
    identifier, with the validated items, the rounded total and status
    ["paid"]. *)
Theorem checkout_commit db payload new_id now ois total :
  validate_loop (product db) (CheckoutRequest.items payload) [] f_zero
    = Ok (ois, total) →
  order db !! new_id = None →
  ∃ db',
    checkout db payload new_id now =
      (Ok (CheckoutResponse.mk (str_of_ObjectId new_id) (f_round2 total)), db') ∧
    (∀ oid,
       product db' !! oid =
       (fun prod =>
          if is_ordered (CheckoutRequest.items payload) oid
          then Product.mk (Product.title prod) (Product.description prod)
                 (Product.price prod) (Product.category prod)
                 (Has (stock_or_0 prod
                       - ordered_quantity (CheckoutRequest.items payload) oid))
                 (Product.image_url prod) (Has true)
                 (Product.created_at prod) (Product.updated_at prod)
          else prod) <$> product db !! oid) ∧
    order db' =
      <[new_id :=
          OrderDoc.mk
            (Order.mk (CheckoutRequest.buyer_name payload)
               (CheckoutRequest.buyer_email payload) ois (f_round2 total) "paid")
            now]> (order db).
Proof.
  intros Hloop Hfresh.
  destruct (checkout_valid_cart _ _ _ now _ _ Hloop Hfresh) as (products' & Hlookup & ->).
  eexists. split; [done|]. simpl. split; [|done].
  intros oid. by rewrite Hlookup.
Qed.

(** C9. A checkout with an empty cart succeeds: the products are
    untouched, one order with no item, total [0.0] and status ["paid"] is
    created, and the response carries that zero total. *)
Theorem checkout_empty_cart db buyer_name buyer_email new_id now :
  order db !! new_id = None →
  checkout db (CheckoutRequest.mk [] buyer_name buyer_email) new_id now =
    (Ok (CheckoutResponse.mk (str_of_ObjectId new_id) f_zero),
     mkDb (product db)
       (<[new_id := OrderDoc.mk (Order.mk buyer_name buyer_email [] f_zero "paid") now]>
          (order db))).
Proof.
  intros Hfresh. unfold checkout, Order_new, create_document_order. simpl.
  by rewrite f_round2_zero, f_ge0_zero, Hfresh.
Qed.

(** *** Quantities below one *)

Lemma validate_line_needs_positive_quantity products item :
  CartItem.quantity item ≤ 0 →
  ∃ e, validate_line products item = Raise e.
Proof.
  intros Hq. destruct (validate_line products item) as [oi|e] eqn:Hline.
  - apply validate_line_Ok in Hline as (_ & Hq' & _). lia.
  - by exists e.
Qed.

(** C10, as the code has it.  A line whose quantity is zero or negative
    passes the stock test against any stock that is not negative, but it
    does not pass [checkout].  For a product that exists with such a
    stock, the rest of the loop body raises: [TypeError] at the
    conversion of a null price; [OverflowError] at the product of the
    price and a quantity that does not fit a float; and otherwise the
    validation error of the schema ([quantity >= 1]) when the
    [OrderItem] is built.  In every case [checkout] raises during
    validation and leaves the store as it was, so that the line adds to
    no total, no stock is raised and no order is created. *)
Theorem checkout_rejects_quantity_below_one db payload new_id now item :
  item ∈ CheckoutRequest.items payload →
  CartItem.quantity item ≤ 0 →
  (∀ prod s,
     get_default (Product.stock prod) 0 = Some s → 0 ≤ s →
     stock_lt prod (CartItem.quantity item) = Ok false) ∧
  (∀ oid prod s,
     ObjectId_of_str (CartItem.product_id item) = Some oid →
     product db !! oid = Some prod →
     get_default (Product.stock prod) 0 = Some s → 0 ≤ s →
     (Product.price prod = Null →
      validate_line (product db) item = Raise TypeError) ∧
     (Product.price prod ≠ Null → f_fits (CartItem.quantity item) = false →
      validate_line (product db) item = Raise OverflowError) ∧
     (Product.price prod ≠ Null → f_fits (CartItem.quantity item) = true →
      validate_line (product db) item = Raise ValidationError)) ∧
  ∃ e, checkout db payload new_id now = (Raise e, db).
Proof.
  intros Hin Hq.
  assert (∀ prod s,
            get_default (Product.stock prod) 0 = Some s → 0 ≤ s →
            stock_lt prod (CartItem.quantity item) = Ok false) as Hstock.
  { intros prod s Hs Hs0. unfold stock_lt. rewrite Hs.
    by rewrite (proj2 (Z.ltb_ge _ _)) by lia. }
  split; [done|]. split.
  - intros oid prod s Hoid Hprod Hs Hs0.
    unfold validate_line. rewrite Hoid, Hprod, (Hstock _ _ Hs Hs0).
    unfold price_of, mul_int. split; [|split].
    + by intros ->.
    + intros Hprice ->. by destruct (Product.price prod).
    + intros Hprice ->. unfold OrderItem_new.
      assert ((1 <=? CartItem.quantity item) = false) as Hone
        by (apply Z.leb_gt; lia).
      destruct (Product.price prod) as [| |p]; [|done|];
        (destruct (get (Product.title prod)); [|done]);
        by rewrite Hone, andb_false_r.
  - destruct (validate_line_needs_positive_quantity (product db) item Hq) as [e He].
    apply checkout_Raise_validation_elem_of with item e; done.
Qed.

(** *** [update_product] *)

Lemma update_product_malformed db product_id payload :
  ObjectId_of_str product_id = None →
  update_product db product_id payload = (Raise (HTTPException 400 "Invalid product id"), db).
Proof. intros Hoid. unfold update_product. by rewrite Hoid. Qed.

Lemma update_product_no_fields db product_id oid payload :
  ObjectId_of_str product_id = Some oid →
  is_empty (model_dump payload) = true →
  update_product db product_id payload = (Raise (HTTPException 400 "No fields to update"), db).
Proof. intros Hoid Hempty. unfold update_product. by rewrite Hoid, Hempty. Qed.

(** The effect of a successful [update_product], key by key. *)
Lemma update_product_Ok db product_id payload r db' :
  update_product db product_id payload = (Ok r, db') →
  ∃ oid prod,
    ObjectId_of_str product_id = Some oid ∧
    is_empty (model_dump payload) = false ∧
    product db !! oid = Some prod ∧
    db' = mkDb
            (<[oid :=
                 Product.mk
                   (set_field (ProductUpdate.title payload) (Product.title prod))
                   (set_field (ProductUpdate.description payload) (Product.description prod))
                   (set_field (ProductUpdate.price payload) (Product.price prod))
                   (set_field (ProductUpdate.category payload) (Product.category prod))
                   (set_field (ProductUpdate.stock payload) (Product.stock prod))
                   (set_field (ProductUpdate.image_url payload) (Product.image_url prod))
                   (set_field (ProductUpdate.in_stock payload) (Product.in_stock prod))
                   (Product.created_at prod)
                   (from_option Has Null (get (Product.updated_at prod)))]>
               (product db))
            (order db).
Proof.
  unfold update_product.
  destruct (ObjectId_of_str product_id) as [oid|] eqn:Hoid; [|discriminate].
  destruct (is_empty _) eqn:Hempty; [discriminate|].
  destruct (product db !! oid) as [prod|] eqn:Hprod; [|discriminate].
  unfold update_one_set. destruct (encodes _); [|discriminate].
  rewrite Hprod. simpl. intros [= <- <-].
  exists oid, prod. repeat split; try done.
  do 2 f_equal. unfold apply_set, set_updated_at, model_dump. simpl.
  f_equal. by destruct (Product.updated_at prod).
Qed.

(** A request that raises leaves the store as it was, and the error is
    never the 404 of the handler. *)
Lemma update_product_Raise db product_id payload e db' :
  update_product db product_id payload = (Raise e, db') →
  db' = db ∧ e ≠ HTTPException 404 "Product not found".
Proof.
  unfold update_product.
  destruct (ObjectId_of_str product_id) as [oid|]; [|by intros [= <- <-]].
  destruct (is_empty _); [by intros [= <- <-]|].
  destruct (product db !! oid) as [prod|] eqn:Hprod; [|by intros [= <- <-]].
  unfold update_one_set. destruct (encodes _); [|by intros [= <- <-]].
  rewrite Hprod. simpl. discriminate.
Qed.

(** C6, at the defect.  With an identifier that parses, a request that
    sets some attribute and no product under that identifier,
    [update_product] raises [AttributeError] at the read of
    [updated_at], before the update and the test of [matched_count];
    the store is unchanged. *)
Theorem update_product_absent_AttributeError db product_id oid payload :
  ObjectId_of_str product_id = Some oid →
  is_empty (model_dump payload) = false →
  product db !! oid = None →
  update_product db product_id payload = (Raise AttributeError, db).
Proof.
  intros Hoid Hempty Hprod. unfold update_product.
  by rewrite Hoid, Hempty, Hprod.
Qed.

(** C7, at the defect.  A successful [update_product] writes back the
    [updated_at] it read from the stored document (null when the key
    was absent): the timestamp after the request is the one before it. *)
Theorem update_product_keeps_updated_at db product_id payload r db' :
  update_product db product_id payload = (Ok r, db') →
  ∃ oid prod prod',
    ObjectId_of_str product_id = Some oid ∧
    product db !! oid = Some prod ∧
    product db' !! oid = Some prod' ∧
    get (Product.updated_at prod') = get (Product.updated_at prod).
Proof.
  intros Hok. apply update_product_Ok in Hok as (oid & prod & Hoid & _ & Hprod & ->).
  eexists oid, prod, _. split; [done|]. split; [done|]. simpl.
  split; [apply lookup_insert_eq|]. simpl.
  by destruct (Product.updated_at prod).
Qed.

(** *** Orders are never rewritten *)

Lemma checkout_order db payload new_id now id doc :
  order db !! id = Some doc →
  order (checkout db payload new_id now).2 !! id = Some doc.
Proof.
  intros Hdoc. unfold checkout.
  destruct (validate_loop _ _ _ _) as [[ois total]|]; [|done].
  destruct (decrement_loop _ _) as [products' [e|]]; [done|].
  destruct (Order_new _ _ _ _ _) as [o|]; [|done].
  unfold create_document_order. simpl.
  destruct (order db !! new_id) eqn:Hnew; simpl; [done|].
  rewrite lookup_insert_ne; [done|]. intros ->. congruence.
Qed.

Lemma create_product_order db payload new_id now :
  order (create_product db payload new_id now).2 = order db.
Proof.
  unfold create_product, create_document_product.
  by destruct (product db !! new_id).
Qed.

Lemma update_product_order db product_id payload :
  order (update_product db product_id payload).2 = order db.
Proof.
  unfold update_product.
  destruct (ObjectId_of_str product_id) as [oid|]; [|done].
  destruct (is_empty _); [done|].
  destruct (product db !! oid) as [prod|] eqn:Hprod; [|done].
  unfold update_one_set. destruct (encodes _); [|done]. by rewrite Hprod.
Qed.

Lemma serve_order db r id doc :
  order db !! id = Some doc → order (serve db r) !! id = Some doc.
Proof.
  intros Hdoc. destruct r; simpl; try done.
  - by apply checkout_order.
  - by rewrite create_product_order.
  - by rewrite update_product_order.
Qed.

Lemma serve_all_order db (rs : list (Request F ObjectId)) id doc :
  order db !! id = Some doc →
  order (serve_all db rs) !! id = Some doc.
Proof.
  unfold serve_all. revert db.
  induction rs as [|r rs IH]; intros db Hdoc; simpl; [done|].
  by apply IH, serve_order.
Qed.

(** C8. An order document that is in the store is still there, with the
    same buyer, items, total, status and creation time, after any
    sequence of requests: no request rewrites or removes it.  The title
    and the price of its items are values copied at purchase, so they
    stay as they were when [update_product] changes the product. *)
Theorem orders_are_immutable db (rs : list (Request F ObjectId)) id doc :
  order db !! id = Some doc →
  order (serve_all db rs) !! id = Some doc.
Proof. apply serve_all_order. Qed.

(** Price freezing: the items of an order are the snapshots of its cart
    lines against the products as they were at the purchase, whatever
    requests follow. *)
Corollary order_items_frozen db payload new_id now resp db'
    (rs : list (Request F ObjectId)) :
  checkout db payload new_id now = (Ok resp, db') →
  ∃ doc,
    order (serve_all db' rs) !! new_id = Some doc ∧
    Forall2 (snapshot_of (product db)) (CheckoutRequest.items payload)
      (Order.items (OrderDoc.data doc)).
Proof.
  intros Hok.
  destruct (checkout_Ok_inv _ _ _ _ _ _ Hok) as (Hfresh & ois & total & Hloop).
  destruct (checkout_valid_cart _ _ _ now _ _ Hloop Hfresh) as (products' & _ & Heq).
  rewrite Heq in Hok. injection Hok as _ <-.
  eexists. split; [apply serve_all_order; simpl; apply lookup_insert_eq|]. simpl.
  apply validate_loop_Ok in Hloop as (new & -> & _ & Hall). simpl.
  eapply Forall2_impl; [exact Hall|]. intros item oi Hline.
  by apply validate_line_Ok in Hline as (? & _).
Qed.

End Properties.

(** ** Further behaviour of the handlers *)

Section Behaviour.
Context {F : Type} `{PyFloat F}.
Context {ObjectId : Type} `{Bson ObjectId}.

Implicit Types (db : Db F ObjectId) (products : gmap ObjectId (Product.t F)).
Implicit Types (item : CartItem.t) (items : list CartItem.t).
Implicit Types (oi : OrderItem.t F) (ois : list (OrderItem.t F)).
Implicit Types (prod : Product.t F) (oid new_id : ObjectId).

(** *** What a validated line was checked against *)

Lemma validate_line_Ok_inv products item oi :
  validate_line products item = Ok oi →
  ∃ oid prod s title price,
    ObjectId_of_str (CartItem.product_id item) = Some oid ∧
    products !! oid = Some prod ∧
    Product.stock prod = Has s ∧
    1 ≤ CartItem.quantity item ≤ s ∧
    get (Product.title prod) = Some title ∧
    price_of prod = Ok price ∧
    f_ge0 price = true ∧
    f_ge0 (f_mul price (f_of_int (CartItem.quantity item))) = true ∧
    oi = OrderItem.mk (str_of_ObjectId oid) title price (CartItem.quantity item)
           (f_mul price (f_of_int (CartItem.quantity item))).
Proof.
  unfold validate_line, stock_lt.
  destruct (ObjectId_of_str _) as [oid|] eqn:Hoid; [|discriminate].
  destruct (products !! oid) as [prod|] eqn:Hprod; [|discriminate].
  destruct (get_default (Product.stock prod) 0) as [s|] eqn:Hs; [|discriminate].
  destruct (s <? CartItem.quantity item) eqn:Hlt; [discriminate|].
  apply Z.ltb_ge in Hlt.
  destruct (price_of prod) as [price|] eqn:Hprice; [|discriminate].
  destruct (mul_int price _) as [subtotal|] eqn:Hmul; [|discriminate].
  apply mul_int_Ok in Hmul as [_ ->].
  intros Hnew. apply OrderItem_new_Ok in Hnew as (t & Ht & -> & Hp & Hq & Hsub).
  exists oid, prod, s, t, price.
  assert (Product.stock prod = Has s) as Hstock.
  { destruct (Product.stock prod) as [| |s']; simpl in Hs; [|done|congruence].
    injection Hs as <-. lia. }
  repeat split; try done; lia.
Qed.

Lemma validate_loop_Raise_inv products items acc total e :
  validate_loop products items acc total = Raise e →
  ∃ pre item post,
    items = pre ++ item :: post ∧
    Forall (fun i => ∃ oi, validate_line products i = Ok oi) pre ∧
    validate_line products item = Raise e.
Proof.
  revert acc total. induction items as [|item rest IH]; intros acc total; simpl.
  - discriminate.
  - destruct (validate_line products item) as [oi|e'] eqn:Hline.
    + intros Hrest. apply IH in Hrest as (pre & i & post & -> & Hpre & Hi).
      exists (item :: pre), i, post. split; [done|]. split; [|done].
      constructor; [by exists oi | done].
    + intros [= ->]. exists [], item, rest. by repeat split.
Qed.

Lemma checkout_Ok_valid db payload new_id now resp db' :
  checkout db payload new_id now = (Ok resp, db') →
  ∃ ois total products',
    order db !! new_id = None ∧
    Forall2 (fun item oi => validate_line (product db) item = Ok oi)
      (CheckoutRequest.items payload) ois ∧
    (∀ oid, products' !! oid =
            after_checkout (CheckoutRequest.items payload) oid <$> product db !! oid) ∧
    resp = CheckoutResponse.mk (str_of_ObjectId new_id) (f_round2 total) ∧
    db' = mkDb products'
            (<[new_id :=
                 OrderDoc.mk
                   (Order.mk (CheckoutRequest.buyer_name payload)
                      (CheckoutRequest.buyer_email payload) ois (f_round2 total) "paid")
                   now]> (order db)).
Proof.
  intros Hok.
  destruct (checkout_Ok_inv _ _ _ _ _ _ Hok) as (Hfresh & ois & total & Hloop).
  destruct (checkout_valid_cart _ _ _ now _ _ Hloop Hfresh) as (products' & Hlookup & Heq).
  rewrite Heq in Hok. injection Hok as <- <-.
  exists ois, total, products'. split; [done|].
  apply validate_loop_Ok in Hloop as (new & -> & _ & Hall). by repeat split.
Qed.

Lemma checkout_Ok_lines_covered_aux db payload new_id now resp db' :
  checkout db payload new_id now = (Ok resp, db') →
  Forall (fun item =>
            ∃ oid prod s,
              ObjectId_of_str (CartItem.product_id item) = Some oid ∧
              product db !! oid = Some prod ∧
              Product.stock prod = Has s ∧
              1 ≤ CartItem.quantity item ≤ s)
    (CheckoutRequest.items payload).
Proof.
  intros Hok. apply checkout_Ok_valid in Hok as (ois & _ & _ & _ & Hall & _).
  induction Hall as [|item oi items ois Hline _ IH]; [constructor|].
  constructor; [|exact IH].
  apply validate_line_Ok_inv in Hline
    as (oid & prod & s & _ & _ & Hoid & Hprod & Hs & Hq & _).
  by exists oid, prod, s.
Qed.

(** A successful checkout saw, for every line, a product with a stock
    that covers the quantity of the line, which is at least one. *)
Theorem checkout_Ok_lines_covered db payload new_id now resp db' :
  checkout db payload new_id now = (Ok resp, db') →
  Forall (fun item =>
            ∃ oid prod s,
              ObjectId_of_str (CartItem.product_id item) = Some oid ∧
              product db !! oid = Some prod ∧
              Product.stock prod = Has s ∧
              1 ≤ CartItem.quantity item ≤ s)
    (CheckoutRequest.items payload).
Proof. apply checkout_Ok_lines_covered_aux. Qed.

(** *** Carts without repeated products *)

Lemma is_ordered_elem_of items item oid :
  item ∈ items →
  ObjectId_of_str (CartItem.product_id item) = Some oid →
  is_ordered items oid = true.
Proof.
  intros Hin Hoid. unfold is_ordered. apply existsb_exists.
  exists item. split; [by apply list_elem_of_In|].
  unfold names_product. by apply bool_decide_eq_true_2.
Qed.

Lemma ordered_quantity_not_named items oid :
  Some oid ∉ parsed_ids items → ordered_quantity items oid = 0.
Proof.
  induction items as [|item rest IH]; simpl; [done|].
  intros Hnot. apply not_elem_of_cons in Hnot as [Hne Hnot].
  unfold names_product. rewrite bool_decide_eq_false_2 by congruence.
  by apply IH.
Qed.

Lemma ordered_quantity_NoDup items item oid :
  NoDup (parsed_ids items) →
  item ∈ items →
  ObjectId_of_str (CartItem.product_id item) = Some oid →
  ordered_quantity items oid = CartItem.quantity item.
Proof.
  intros Hnodup Hin Hoid. induction Hin as [item rest|item i rest Hin IH]; simpl.
  - apply NoDup_cons in Hnodup as [Hnot _]. rewrite Hoid in Hnot.
    unfold names_product. rewrite bool_decide_eq_true_2 by done.
    rewrite ordered_quantity_not_named by done. lia.
  - simpl in Hnodup. apply NoDup_cons in Hnodup as [Hnot Hnodup].
    unfold names_product. rewrite bool_decide_eq_false_2; [by apply IH|].
    intros Hi. apply Hnot. rewrite Hi, <- Hoid.
    apply list_elem_of_In, in_map_iff. exists item.
    split; [done | by apply list_elem_of_In].
Qed.

(** When no two lines of the cart name the same product, a successful
    checkout lowers the stock of each named product by the quantity of
    its line, and the stock that results is not negative. *)
Theorem checkout_distinct_products_stock db payload new_id now resp db' :
  checkout db payload new_id now = (Ok resp, db') →
  NoDup (parsed_ids (CheckoutRequest.items payload)) →
  Forall (fun item =>
            ∃ oid prod prod' s,
              ObjectId_of_str (CartItem.product_id item) = Some oid ∧
              product db !! oid = Some prod ∧
              Product.stock prod = Has s ∧
              product db' !! oid = Some prod' ∧
              Product.stock prod' = Has (s - CartItem.quantity item) ∧
              0 ≤ s - CartItem.quantity item)
    (CheckoutRequest.items payload).
Proof.
  intros Hok Hnodup.
  pose proof (checkout_Ok_lines_covered_aux db payload new_id now resp db' Hok) as Hcov.
  apply checkout_Ok_valid in Hok as (ois & total & products' & _ & _ & Hlookup & _ & ->).
  apply Forall_forall. intros item Hin.
  rewrite Forall_forall in Hcov. destruct (Hcov item Hin) as (oid & prod & s & Hoid & Hprod & Hs & Hq).
  exists oid, prod, (purchased prod (CartItem.quantity item)), s.
  split; [done|]. split; [done|]. split; [done|]. simpl.
  rewrite Hlookup, Hprod. unfold after_checkout.
  rewrite (is_ordered_elem_of _ item) by done.
  rewrite (ordered_quantity_NoDup _ item) by done.
  split; [done|]. unfold purchased, stock_or_0. simpl. rewrite Hs.
  split; [done | lia].
Qed.

(** *** What [checkout] leaves alone *)

Lemma same_listing_refl prod : same_listing prod prod.
Proof. by repeat split. Qed.

Lemma same_listing_trans prod1 prod2 prod3 :
  same_listing prod1 prod2 → same_listing prod2 prod3 → same_listing prod1 prod3.
Proof.
  intros (?&?&?&?&?&?&?) (?&?&?&?&?&?&?). repeat split; congruence.
Qed.

Lemma listings_kept_refl products : listings_kept products products.
Proof.
  intros oid. destruct (products !! oid); constructor. apply same_listing_refl.
Qed.

Lemma listings_kept_trans products1 products2 products3 :
  listings_kept products1 products2 → listings_kept products2 products3 →
  listings_kept products1 products3.
Proof.
  intros H12 H23 oid. specialize (H12 oid). specialize (H23 oid).
  destruct H12 as [prod1 prod2 H12|]; inversion H23; subst; constructor.
  by eapply same_listing_trans.
Qed.

Lemma update_one_inc_stock_listings products oid d products' :
  update_one_inc_stock products oid d = Ok products' →
  listings_kept products products'.
Proof.
  unfold update_one_inc_stock.
  destruct (products !! oid) as [prod|] eqn:Hprod.
  - destruct (inc_stock d (Product.stock prod)) as [stock'|]; [|discriminate].
    intros [= <-] oid'. destruct (decide (oid = oid')) as [<-|Hne].
    + rewrite lookup_insert_eq, Hprod. constructor. by repeat split.
    + rewrite lookup_insert_ne by done.
      destruct (products !! oid'); constructor. apply same_listing_refl.
  - intros [= <-]. apply listings_kept_refl.
Qed.

Lemma decrement_loop_listings products items products' oe :
  decrement_loop products items = (products', oe) →
  listings_kept products products'.
Proof.
  revert products. induction items as [|item rest IH]; intros products; simpl.
  - intros [= <- _]. apply listings_kept_refl.
  - destruct (ObjectId_of_str _) as [oid|].
    + destruct (update_one_inc_stock products oid _) as [products1|] eqn:Hupd.
      * intros Hrest. eapply listings_kept_trans; [|by apply IH].
        by eapply update_one_inc_stock_listings.
      * intros [= <- _]. apply listings_kept_refl.
    + intros [= <- _]. apply listings_kept_refl.
Qed.

(** Whether it succeeds or raises, [checkout] neither adds nor removes
    a product, and of a product it changes no key other than [stock]
    and [in_stock]. *)
Theorem checkout_keeps_listings db payload new_id now oid :
  option_Forall2 same_listing
    (product db !! oid) (product (checkout db payload new_id now).2 !! oid).
Proof.
  revert oid. change (listings_kept (product db) (product (checkout db payload new_id now).2)).
  unfold checkout.
  destruct (validate_loop _ _ _ _) as [[ois total]|]; [|apply listings_kept_refl].
  destruct (decrement_loop _ _) as [products' oe] eqn:Hloop.
  apply decrement_loop_listings in Hloop.
  destruct oe as [e|]; [done|].
  destruct (Order_new _ _ _ _ _) as [o|]; [|done].
  unfold create_document_order. simpl.
  by destruct (order db !! new_id).
Qed.

(** *** Failures *)

(** When the identifier of the new order is unused, a checkout that
    raises has changed nothing, and its error is the one that the first
    failing line of the cart raises in validation. *)
Theorem checkout_Raise_unchanged db payload new_id now e db' :
  checkout db payload new_id now = (Raise e, db') →
  order db !! new_id = None →
  db' = db ∧
  ∃ pre item post,
    CheckoutRequest.items payload = pre ++ item :: post ∧
    Forall (fun i => ∃ oi, validate_line (product db) i = Ok oi) pre ∧
    validate_line (product db) item = Raise e.
Proof.
  intros Hraise Hfresh.
  destruct (validate_loop (product db) (CheckoutRequest.items payload) [] f_zero)
    as [[ois total]|e0] eqn:Hloop.
  - destruct (checkout_valid_cart _ _ _ now _ _ Hloop Hfresh) as (products' & _ & Heq).
    rewrite Heq in Hraise. discriminate.
  - rewrite (checkout_Raise_validation _ _ _ _ _ Hloop) in Hraise.
    injection Hraise as -> ->. split; [done|].
    by eapply validate_loop_Raise_inv.
Qed.

Lemma validate_line_Raise_kinds products item e :
  validate_line products item = Raise e →
  e = HTTPException 400 ("Invalid product id: " +:+ CartItem.product_id item) ∨
  e = HTTPException 404 ("Product not found: " +:+ CartItem.product_id item) ∨
  (∃ title, e = HTTPException 400 ("Insufficient stock for " +:+ py_str title)) ∨
  e = TypeError ∨ e = OverflowError ∨ e = ValidationError.
Proof.
  unfold validate_line, stock_lt, price_of, mul_int, OrderItem_new.
  destruct (ObjectId_of_str _) as [oid|]; [|intros [= <-]; by left].
  destruct (products !! oid) as [prod|]; [|intros [= <-]; by right; left].
  destruct (get_default _ _) as [s|]; [|intros [= <-]; by do 3 right; left].
  destruct (s <? _); [intros [= <-]; do 2 right; left; by eexists|].
  destruct (Product.price prod); [|intros [= <-]; by do 3 right; left|].
  - destruct (f_fits _); [|intros [= <-]; by do 4 right; left].
    destruct (get _); [|intros [= <-]; by do 5 right].
    destruct (_ && _); [discriminate | intros [= <-]; by do 5 right].
  - destruct (f_fits _); [|intros [= <-]; by do 4 right; left].
    destruct (get _); [|intros [= <-]; by do 5 right].
    destruct (_ && _); [discriminate | intros [= <-]; by do 5 right].
Qed.

(** When the identifier of the new order is unused, the exceptions of
    [checkout] are the three HTTP errors of its validation loop, the
    [TypeError] of a null stock or price, the [OverflowError] of a
    quantity that does not fit a float and the validation error of
    [OrderItem]; the other exceptions do not occur. *)
Theorem checkout_Raise_kinds db payload new_id now e db' :
  checkout db payload new_id now = (Raise e, db') →
  order db !! new_id = None →
  ∃ item,
    item ∈ CheckoutRequest.items payload ∧
    (e = HTTPException 400 ("Invalid product id: " +:+ CartItem.product_id item) ∨
     e = HTTPException 404 ("Product not found: " +:+ CartItem.product_id item) ∨
     (∃ title, e = HTTPException 400 ("Insufficient stock for " +:+ py_str title)) ∨
     e = TypeError ∨ e = OverflowError ∨ e = ValidationError).
Proof.
  intros Hraise Hfresh.
  destruct (validate_loop (product db) (CheckoutRequest.items payload) [] f_zero)
    as [[ois total]|e0] eqn:Hloop.
  - destruct (checkout_valid_cart _ _ _ now _ _ Hloop Hfresh) as (products' & _ & Heq).
    rewrite Heq in Hraise. discriminate.
  - rewrite (checkout_Raise_validation _ _ _ _ _ Hloop) in Hraise.
    injection Hraise as -> _.
    apply validate_loop_Raise_inv in Hloop as (pre & item & post & Hitems & _ & Hline).
    exists item. split; [|by eapply validate_line_Raise_kinds].
    rewrite Hitems. apply elem_of_app. right. left.
Qed.

(** *** The orders that [checkout] writes *)

(** The order that a successful checkout stores satisfies the
    constraints of the schemas: its total is not negative, it has one
    item per cart line, and every item has a quantity of at least one
    and a price and a subtotal that are not negative. *)
Theorem checkout_order_meets_schema db payload new_id now resp db' :
  checkout db payload new_id now = (Ok resp, db') →
  ∃ doc,
    order db' !! new_id = Some doc ∧
    f_ge0 (Order.total (OrderDoc.data doc)) = true ∧
    length (Order.items (OrderDoc.data doc))
      = length (CheckoutRequest.items payload) ∧
    Forall (fun oi => 1 ≤ OrderItem.quantity oi ∧
                      f_ge0 (OrderItem.price oi) = true ∧
                      f_ge0 (OrderItem.subtotal oi) = true)
      (Order.items (OrderDoc.data doc)).
Proof.
  intros Hok.
  destruct (checkout_Ok_inv _ _ _ _ _ _ Hok) as (Hfresh & ois & total & Hloop).
  pose proof (validate_loop_total_ge0 _ _ _ _ Hloop) as Htotal.
  destruct (checkout_valid_cart _ _ _ now _ _ Hloop Hfresh) as (products' & _ & Heq).
  rewrite Heq in Hok. injection Hok as _ <-.
  eexists. split; [apply lookup_insert_eq|]. simpl. split; [done|].
  apply validate_loop_Ok in Hloop as (new & -> & _ & Hall). simpl.
  split; [symmetry; by eapply Forall2_length|].
  clear Heq Htotal. induction Hall as [|item oi items new Hline _ IH]; [constructor|].
  constructor; [|exact IH].
  apply validate_line_Ok_inv in Hline
    as (oid & prod & s & t & price & _ & _ & _ & Hq & _ & _ & Hp & Hsub & ->).
  simpl. repeat split; [lia | done | done].
Qed.

(** *** [update_product] *)

Lemma update_product_Some db product_id oid payload prod :
  ObjectId_of_str product_id = Some oid →
  is_empty (model_dump payload) = false →
  encodes (model_dump payload) = true →
  product db !! oid = Some prod →
  update_product db product_id payload
  = (Ok true, mkDb (<[oid := patched payload prod]> (product db)) (order db)).
Proof.
  intros Hoid Hempty Henc Hprod. unfold update_product.
  rewrite Hoid, Hempty, Hprod. unfold update_one_set.
  unfold encodes in *. simpl in *. rewrite Henc, Hprod. simpl.
  do 3 f_equal. unfold apply_set, set_updated_at, model_dump, patched. simpl.
  f_equal. by destruct (Product.updated_at prod).
Qed.

Lemma update_product_Ok_patched db product_id payload r db' :
  update_product db product_id payload = (Ok r, db') →
  ∃ oid prod,
    ObjectId_of_str product_id = Some oid ∧
    is_empty (model_dump payload) = false ∧
    encodes (model_dump payload) = true ∧
    product db !! oid = Some prod ∧
    r = true ∧
    db' = mkDb (<[oid := patched payload prod]> (product db)) (order db).
Proof.
  intros Hok. pose proof Hok as Hok'.
  apply update_product_Ok in Hok' as (oid & prod & Hoid & Hempty & Hprod & _).
  destruct (encodes (model_dump payload)) eqn:Henc.
  - rewrite (update_product_Some _ _ _ _ _ Hoid Hempty Henc Hprod) in Hok.
    injection Hok as <- <-. by exists oid, prod.
  - unfold update_product in Hok. rewrite Hoid, Hempty, Hprod in Hok.
    unfold update_one_set in Hok. unfold encodes in *. simpl in *.
    rewrite Henc in Hok. discriminate.
Qed.

(** A successful [update_product] replaces, in the product it names,
    the keys that the request sets; the keys of the schema that it does
    not set and [created_at] are as before; [updated_at] is written
    back as it was stored, and is null afterwards when the key was
    absent.  All other products and all orders are as before. *)
Theorem update_product_frame db product_id payload r db' :
  update_product db product_id payload = (Ok r, db') →
  ∃ oid prod prod',
    ObjectId_of_str product_id = Some oid ∧
    product db !! oid = Some prod ∧
    product db' !! oid = Some prod' ∧
    Product.title prod' = set_field (ProductUpdate.title payload) (Product.title prod) ∧
    Product.description prod'
      = set_field (ProductUpdate.description payload) (Product.description prod) ∧
    Product.price prod' = set_field (ProductUpdate.price payload) (Product.price prod) ∧
    Product.category prod'
      = set_field (ProductUpdate.category payload) (Product.category prod) ∧
    Product.stock prod' = set_field (ProductUpdate.stock payload) (Product.stock prod) ∧
    Product.image_url prod'
      = set_field (ProductUpdate.image_url payload) (Product.image_url prod) ∧
    Product.in_stock prod'
      = set_field (ProductUpdate.in_stock payload) (Product.in_stock prod) ∧
    Product.created_at prod' = Product.created_at prod ∧
    Product.updated_at prod'
      = match Product.updated_at prod with
        | Has t => Has t
        | Null | Missing => Null
        end ∧
    (∀ oid', oid' ≠ oid → product db' !! oid' = product db !! oid') ∧
    order db' = order db.
Proof.
  intros Hok. apply update_product_Ok in Hok as (oid & prod & Hoid & _ & Hprod & ->).
  eexists oid, prod, _. split; [done|]. split; [done|]. simpl.
  split; [apply lookup_insert_eq|]. simpl. repeat split; try done.
  - by destruct (Product.updated_at prod).
  - intros oid' Hne. by rewrite lookup_insert_ne.
Qed.


Lemma set_field_idemp {T} (new old : field T) :
  set_field new (set_field new old) = set_field new old.
Proof. by destruct new. Qed.

Lemma patched_idemp (payload : ProductUpdate.t F) prod :
  patched payload (patched payload prod) = patched payload prod.
Proof.
  unfold patched. simpl. rewrite !set_field_idemp.
  f_equal. by destruct (Product.updated_at prod).
Qed.

(** Serving the same update a second time changes nothing more. *)
Theorem update_product_idempotent db product_id payload r db' :
  update_product db product_id payload = (Ok r, db') →
  update_product db' product_id payload = (Ok r, db').
Proof.
  intros Hok.
  apply update_product_Ok_patched in Hok
    as (oid & prod & Hoid & Hempty & Henc & Hprod & -> & ->).
  erewrite update_product_Some; [|done|done|done|simpl; apply lookup_insert_eq].
  simpl. by rewrite insert_insert_eq, patched_idemp.
Qed.

(** *** An update followed by a checkout *)

(** After an update that sets [stock] to null, a checkout whose first
    line names that product raises [TypeError] and changes nothing. *)
Theorem update_null_stock_then_checkout db product_id payload r db'
    item rest buyer_name buyer_email new_id now :
  update_product db product_id payload = (Ok r, db') →
  ProductUpdate.stock payload = Null →
  ObjectId_of_str (CartItem.product_id item) = ObjectId_of_str product_id →
  checkout db' (CheckoutRequest.mk (item :: rest) buyer_name buyer_email) new_id now
  = (Raise TypeError, db').
Proof.
  intros Hok Hnull Hitem.
  apply update_product_Ok in Hok as (oid & prod & Hoid & _ & Hprod & ->).
  apply checkout_Raise_validation. simpl.
  unfold validate_line. rewrite Hitem, Hoid. simpl. rewrite lookup_insert_eq.
  unfold stock_lt. simpl. by rewrite Hnull.
Qed.

(** After an update that sets the price, a successful checkout of one
    line of that product charges the new price: the total is the
    rounding of [0.0 + price * quantity]. *)
Theorem update_price_then_checkout db product_id payload r db'
    price item buyer_name buyer_email new_id now resp db'' :
  update_product db product_id payload = (Ok r, db') →
  ProductUpdate.price payload = Has price →
  ObjectId_of_str (CartItem.product_id item) = ObjectId_of_str product_id →
  checkout db' (CheckoutRequest.mk [item] buyer_name buyer_email) new_id now
  = (Ok resp, db'') →
  CheckoutResponse.total resp
  = f_round2 (f_add f_zero (f_mul price (f_of_int (CartItem.quantity item)))).
Proof.
  intros Hupd Hprice Hitem Hok.
  apply update_product_Ok in Hupd as (oid & prod & Hoid & _ & Hprod & ->).
  destruct (checkout_Ok_inv _ _ _ _ _ _ Hok) as (Hfresh & ois & total & Hloop).
  destruct (checkout_valid_cart _ _ _ now _ _ Hloop Hfresh) as (products' & _ & Heq).
  rewrite Heq in Hok. injection Hok as <- _. simpl.
  simpl in Hloop. destruct (validate_line _ item) as [oi|] eqn:Hline; [|discriminate].
  injection Hloop as _ <-. do 2 f_equal.
  apply validate_line_Ok_inv in Hline
    as (oid' & prod' & s & t & p & Hoid' & Hprod' & _ & _ & _ & Hp & _ & _ & ->).
  simpl in Hprod'. rewrite Hitem, Hoid in Hoid'. injection Hoid' as <-.
  rewrite lookup_insert_eq in Hprod'. injection Hprod' as <-.
  unfold price_of in Hp. simpl in Hp. rewrite Hprice in Hp. simpl in Hp.
  by injection Hp as <-.
Qed.

(** After an update that sets the title, the stock or the price of a
    product to null, no checkout with a line for that product succeeds:
    it raises and changes nothing. *)
Theorem update_null_then_checkout_raises db product_id payload r db'
    cart new_id now item :
  update_product db product_id payload = (Ok r, db') →
  ProductUpdate.title payload = Null ∨ ProductUpdate.stock payload = Null
    ∨ ProductUpdate.price payload = Null →
  item ∈ CheckoutRequest.items cart →
  ObjectId_of_str (CartItem.product_id item) = ObjectId_of_str product_id →
  ∃ e, checkout db' cart new_id now = (Raise e, db').
Proof.
  intros Hupd Hnull Hin Hitem.
  apply update_product_Ok in Hupd as (oid & prod & Hoid & _ & Hprod & ->).
  destruct (validate_line
              (product (mkDb (<[oid := patched payload prod]> (product db)) (order db)))
              item) as [oi|e] eqn:Hline.
  - exfalso. apply validate_line_Ok_inv in Hline
      as (oid' & prod' & s & t & p & Hoid' & Hprod' & Hs & _ & Ht & Hp & _).
    simpl in Hprod'. rewrite Hitem, Hoid in Hoid'. injection Hoid' as <-.
    rewrite lookup_insert_eq in Hprod'. injection Hprod' as <-.
    unfold price_of in Hp. simpl in *.
    destruct Hnull as [Hn|[Hn|Hn]]; rewrite Hn in *; discriminate.
  - by eapply checkout_Raise_validation_elem_of.
Qed.

(** A product document without the key [price] is sold at the price
    that [float(0)] gives: the total of a successful checkout of one
    line of it is the rounding of [0.0 + float(0) * quantity]. *)
Theorem checkout_missing_price db item buyer_name buyer_email new_id now
    oid prod resp db' :
  ObjectId_of_str (CartItem.product_id item) = Some oid →
  product db !! oid = Some prod →
  Product.price prod = Missing →
  checkout db (CheckoutRequest.mk [item] buyer_name buyer_email) new_id now
  = (Ok resp, db') →
  CheckoutResponse.total resp
  = f_round2 (f_add f_zero (f_mul (f_of_int 0) (f_of_int (CartItem.quantity item)))).
Proof.
  intros Hoid Hprod Hprice Hok.
  destruct (checkout_Ok_inv _ _ _ _ _ _ Hok) as (Hfresh & ois & total & Hloop).
  destruct (checkout_valid_cart _ _ _ now _ _ Hloop Hfresh) as (products' & _ & Heq).
  rewrite Heq in Hok. injection Hok as <- _. simpl.
  simpl in Hloop. destruct (validate_line _ item) as [oi|] eqn:Hline; [|discriminate].
  injection Hloop as _ <-. do 2 f_equal.
  apply validate_line_Ok_inv in Hline
    as (oid' & prod' & s & t & p & Hoid' & Hprod' & _ & _ & _ & Hp & _ & _ & ->).
  rewrite Hoid in Hoid'. injection Hoid' as <-.
  rewrite Hprod in Hprod'. injection Hprod' as <-.
  unfold price_of in Hp. rewrite Hprice in Hp. by injection Hp as <-.
Qed.

(** *** One update after another *)

(** Updates of two different products commute: served in the other
    order they succeed as well and leave the same store. *)
Theorem update_product_commute db product_id1 payload1 product_id2 payload2
    r1 r2 db1 db2 :
  ObjectId_of_str product_id1 ≠ ObjectId_of_str product_id2 →
  update_product db product_id1 payload1 = (Ok r1, db1) →
  update_product db1 product_id2 payload2 = (Ok r2, db2) →
  ∃ db1',
    update_product db product_id2 payload2 = (Ok r2, db1') ∧
    update_product db1' product_id1 payload1 = (Ok r1, db2).
Proof.
  intros Hne Hok1 Hok2.
  apply update_product_Ok_patched in Hok1
    as (oid1 & prod1 & Hoid1 & Hempty1 & Henc1 & Hprod1 & -> & ->).
  apply update_product_Ok_patched in Hok2
    as (oid2 & prod2 & Hoid2 & Hempty2 & Henc2 & Hprod2 & -> & ->).
  assert (oid1 ≠ oid2) as Hoids by congruence.
  simpl in *. rewrite lookup_insert_ne in Hprod2 by done.
  eexists. split; [by apply update_product_Some|].
  erewrite update_product_Some; [|done|done|done|].
  - simpl. by rewrite insert_insert_ne.
  - simpl. by rewrite lookup_insert_ne.
Qed.

Lemma set_field_assoc {T} (c b a : field T) :
  set_field c (set_field b a) = set_field (set_field c b) a.
Proof. by destruct c. Qed.

Lemma is_missing_set_field {T} (b a : field T) :
  is_missing (set_field b a) = is_missing b && is_missing a.
Proof. by destruct b. Qed.

Lemma patched_patched (payload1 payload2 : ProductUpdate.t F) prod :
  patched payload2 (patched payload1 prod)
  = patched (merge_updates payload2 payload1) prod.
Proof.
  unfold patched, merge_updates. simpl. rewrite !set_field_assoc.
  f_equal. by destruct (Product.updated_at prod).
Qed.

Lemma is_empty_merge_updates (later earlier : ProductUpdate.t F) :
  is_empty (model_dump earlier) = false →
  is_empty (model_dump (merge_updates later earlier)) = false.
Proof.
  unfold is_empty, model_dump, merge_updates. simpl.
  rewrite !is_missing_set_field.
  destruct (is_missing (ProductUpdate.title earlier)),
           (is_missing (ProductUpdate.description earlier)),
           (is_missing (ProductUpdate.price earlier)),
           (is_missing (ProductUpdate.category earlier)),
           (is_missing (ProductUpdate.stock earlier)),
           (is_missing (ProductUpdate.image_url earlier)),
           (is_missing (ProductUpdate.in_stock earlier));
    simpl; try discriminate; intros _; rewrite ?andb_false_r; done.
Qed.

Lemma encodes_merge_updates (later earlier : ProductUpdate.t F) :
  encodes (model_dump earlier) = true →
  encodes (model_dump later) = true →
  encodes (model_dump (merge_updates later earlier)) = true.
Proof.
  unfold encodes, model_dump, merge_updates. simpl.
  by destruct (ProductUpdate.stock later).
Qed.

(** Two updates of one product, one after the other, leave the store
    that the single update does which sets the attributes of the second
    and, where the second sets none, those of the first. *)
Theorem update_product_twice db product_id payload1 payload2 r1 r2 db1 db2 :
  update_product db product_id payload1 = (Ok r1, db1) →
  update_product db1 product_id payload2 = (Ok r2, db2) →
  update_product db product_id (merge_updates payload2 payload1) = (Ok r2, db2).
Proof.
  intros Hok1 Hok2.
  apply update_product_Ok_patched in Hok1
    as (oid & prod & Hoid & Hempty1 & Henc1 & Hprod & -> & ->).
  apply update_product_Ok_patched in Hok2
    as (oid' & prod' & Hoid' & _ & Henc2 & Hprod' & -> & ->).
  rewrite Hoid in Hoid'. injection Hoid' as <-.
  simpl in *. rewrite lookup_insert_eq in Hprod'. injection Hprod' as <-.
  erewrite update_product_Some;
    [|done|by apply is_empty_merge_updates|by apply encodes_merge_updates|done].
  by rewrite insert_insert_eq, patched_patched.
Qed.

(** *** Carts and their order *)

Lemma is_ordered_Permutation items items' oid :
  items ≡ₚ items' → is_ordered items oid = is_ordered items' oid.
Proof.
  intros Hperm. induction Hperm as [|item l l' _ IH|i j l|l l' l'' _ IH1 _ IH2]; simpl.
  - done.
  - by rewrite IH.
  - by destruct (names_product i oid), (names_product j oid).
  - by rewrite IH1.
Qed.

Lemma ordered_quantity_Permutation items items' oid :
  items ≡ₚ items' → ordered_quantity items oid = ordered_quantity items' oid.
Proof.
  intros Hperm. induction Hperm as [|item l l' _ IH|i j l|l l' l'' _ IH1 _ IH2]; simpl.
  - done.
  - by rewrite IH.
  - destruct (names_product i oid), (names_product j oid); lia.
  - by rewrite IH1.
Qed.

Lemma Forall2_valid_Forall products items ois :
  Forall2 (fun item oi => validate_line products item = Ok oi) items ois →
  Forall (fun item => ∃ oi, validate_line products item = Ok oi) items.
Proof.
  intros Hall. induction Hall as [|item oi items ois Hline _ IH]; constructor; eauto.
Qed.

(** The stock that a successful checkout leaves does not depend on the
    order of the lines of the cart: a cart with the same lines in
    another order succeeds too and leaves the same products. *)
Theorem checkout_cart_order_irrelevant db items items' buyer_name buyer_email
    new_id now resp db1 :
  items ≡ₚ items' →
  checkout db (CheckoutRequest.mk items buyer_name buyer_email) new_id now
  = (Ok resp, db1) →
  ∃ resp' db2,
    checkout db (CheckoutRequest.mk items' buyer_name buyer_email) new_id now
    = (Ok resp', db2) ∧
    product db2 = product db1.
Proof.
  intros Hperm Hok.
  apply checkout_Ok_valid in Hok as (ois & total & products1 & Hfresh & Hall & Hlookup & _ & ->).
  simpl in *. apply Forall2_valid_Forall in Hall. rewrite Hperm in Hall.
  destruct (validate_loop_all_valid _ _ [] f_zero Hall) as (ois' & total' & Hloop).
  destruct (checkout_valid_cart db (CheckoutRequest.mk items' buyer_name buyer_email)
              new_id now ois' total' Hloop Hfresh) as (products2 & Hlookup' & ->).
  eexists _, _. split; [done|]. simpl.
  apply map_eq. intros oid. rewrite Hlookup, Hlookup'. simpl. unfold after_checkout.
  by rewrite (is_ordered_Permutation _ _ _ Hperm),
             (ordered_quantity_Permutation _ _ _ Hperm).
Qed.

(** *** One checkout after another *)

Lemma is_ordered_app items1 items2 oid :
  is_ordered (items1 ++ items2) oid = is_ordered items1 oid || is_ordered items2 oid.
Proof. unfold is_ordered. apply existsb_app. Qed.

Lemma ordered_quantity_app items1 items2 oid :
  ordered_quantity (items1 ++ items2) oid
  = ordered_quantity items1 oid + ordered_quantity items2 oid.
Proof.
  induction items1 as [|item rest IH]; simpl; [done|].
  destruct (names_product item oid); lia.
Qed.

Lemma after_checkout_app items1 items2 oid prod :
  after_checkout (items1 ++ items2) oid prod
  = after_checkout items2 oid (after_checkout items1 oid prod).
Proof.
  unfold after_checkout. rewrite is_ordered_app, ordered_quantity_app.
  destruct (is_ordered items1 oid) eqn:Ho1, (is_ordered items2 oid) eqn:Ho2; simpl.
  - by rewrite purchased_purchased.
  - by rewrite (ordered_quantity_not_ordered items2), Z.add_0_r.
  - by rewrite (ordered_quantity_not_ordered items1).
  - done.
Qed.

Lemma ordered_quantity_nonneg items oid :
  Forall (fun item => 1 ≤ CartItem.quantity item) items →
  0 ≤ ordered_quantity items oid.
Proof.
  intros Hall. induction Hall as [|item rest Hq _ IH]; simpl; [done|].
  destruct (names_product item oid); lia.
Qed.

Lemma is_ordered_true items oid :
  is_ordered items oid = true →
  ∃ item, item ∈ items ∧ ObjectId_of_str (CartItem.product_id item) = Some oid.
Proof.
  unfold is_ordered. intros (item & Hin & Hnames)%existsb_exists.
  exists item. split; [by apply list_elem_of_In|].
  unfold names_product in Hnames. by apply bool_decide_eq_true_1 in Hnames.
Qed.

(** A line that validates after a successful checkout validated before
    it as well, with the same item. *)
Lemma validate_line_before products products' items1 item oi :
  Forall (fun i => ∃ oi', validate_line products i = Ok oi') items1 →
  (∀ oid, products' !! oid = after_checkout items1 oid <$> products !! oid) →
  validate_line products' item = Ok oi →
  validate_line products item = Ok oi.
Proof.
  intros Hvalid Hlookup Hline. pose proof Hline as Hinv.
  apply validate_line_Ok_inv in Hinv
    as (oid & prod' & s' & t & p & Hoid & Hprod' & Hs' & Hq & _).
  revert Hline. unfold validate_line. rewrite Hoid, Hprod'.
  rewrite Hlookup in Hprod'.
  destruct (products !! oid) as [prod|] eqn:Hprod; [|discriminate].
  injection Hprod' as <-. unfold after_checkout in *.
  destruct (is_ordered items1 oid) eqn:Hordered; [|done].
  apply is_ordered_true in Hordered as (i & Hin & Hi).
  rewrite Forall_forall in Hvalid. destruct (Hvalid i Hin) as [oi' Hoi'].
  apply validate_line_Ok_inv in Hoi'
    as (oid0 & prod0 & s & _ & _ & Hoid0 & Hprod0 & Hs & _).
  rewrite Hi in Hoid0. injection Hoid0 as <-.
  rewrite Hprod in Hprod0. injection Hprod0 as <-.
  assert (0 ≤ ordered_quantity items1 oid) as Hsum.
  { apply ordered_quantity_nonneg. apply Forall_forall. intros j Hj.
    destruct (Hvalid j Hj) as [oj Hoj].
    by apply validate_line_Ok in Hoj as (_ & ? & _). }
  unfold purchased, stock_or_0 in Hs'. simpl in Hs'. rewrite Hs in Hs'.
  injection Hs' as <-.
  unfold stock_lt, price_of, purchased, stock_or_0. simpl. rewrite Hs. simpl.
  rewrite !(proj2 (Z.ltb_ge _ _)) by lia. done.
Qed.

(** Two checkouts that succeed one after the other leave the products
    as one checkout of the two carts joined would, and that checkout
    succeeds as well. *)
Theorem checkout_twice_as_one db items1 items2 name1 email1 name2 email2
    name email id1 id2 new_id now1 now2 now resp1 resp2 db1 db2 :
  checkout db (CheckoutRequest.mk items1 name1 email1) id1 now1 = (Ok resp1, db1) →
  checkout db1 (CheckoutRequest.mk items2 name2 email2) id2 now2 = (Ok resp2, db2) →
  order db !! new_id = None →
  ∃ resp db',
    checkout db (CheckoutRequest.mk (items1 ++ items2) name email) new_id now
    = (Ok resp, db') ∧
    product db' = product db2.
Proof.
  intros Hok1 Hok2 Hfresh.
  apply checkout_Ok_valid in Hok1 as (ois1 & total1 & products1 & _ & Hall1 & Hlookup1 & _ & ->).
  apply checkout_Ok_valid in Hok2 as (ois2 & total2 & products2 & _ & Hall2 & Hlookup2 & _ & ->).
  simpl in *. apply Forall2_valid_Forall in Hall1.
  assert (Forall (fun item => ∃ oi, validate_line (product db) item = Ok oi)
            (items1 ++ items2)) as Hall.
  { apply Forall_app. split; [done|].
    apply Forall2_valid_Forall in Hall2. eapply Forall_impl; [exact Hall2|].
    intros item [oi Hoi]. exists oi.
    eapply validate_line_before; [exact Hall1 | exact Hlookup1 | exact Hoi]. }
  destruct (validate_loop_all_valid _ _ [] f_zero Hall) as (ois & total & Hloop).
  destruct (checkout_valid_cart db (CheckoutRequest.mk (items1 ++ items2) name email)
              new_id now ois total Hloop Hfresh) as (products' & Hlookup & ->).
  eexists _, _. split; [done|]. simpl.
  apply map_eq. intros oid. rewrite Hlookup, Hlookup2, Hlookup1. simpl.
  destruct (product db !! oid) as [prod|]; simpl; [|done].
  by rewrite after_checkout_app.
Qed.

End Behaviour.

(** ** [to_serializable] *)

Section SerialisationProperties.
Context {V : Type} (str : V → V).

Implicit Types (d : gmap string V) (v : V).

Lemma to_serializable_renames_id_aux d v :
  d !! "_id" = Some v →
  ∃ d',
    to_serializable str (Some d) = Some d' ∧
    d' !! "_id" = None ∧
    d' !! "id" = Some (str v) ∧
    ∀ k, k ≠ "_id" → k ≠ "id" → d' !! k = d !! k.
Proof.
  intros Hid. unfold to_serializable.
  destruct (decide (size d = 0%nat)) as [Hsize|_].
  - apply map_size_empty_iff in Hsize. subst. by rewrite lookup_empty in Hid.
  - rewrite Hid. eexists. split; [done|].
    split; [by rewrite lookup_insert_ne, lookup_delete_eq|].
    split; [by rewrite lookup_insert_eq|].
    intros k Hk1 Hk2. by rewrite lookup_insert_ne, lookup_delete_ne.
Qed.

(** On a document with an ["_id"], [to_serializable] removes that key,
    puts the printed identifier under ["id"] (over an ["id"] that was
    there) and keeps every other key. *)
Theorem to_serializable_renames_id d v :
  d !! "_id" = Some v →
  ∃ d',
    to_serializable str (Some d) = Some d' ∧
    d' !! "_id" = None ∧
    d' !! "id" = Some (str v) ∧
    ∀ k, k ≠ "_id" → k ≠ "id" → d' !! k = d !! k.
Proof. apply to_serializable_renames_id_aux. Qed.

(** [to_serializable] returns a document without ["_id"], and [None]
    and the empty document, as they are. *)
Lemma to_serializable_without_id d :
  d !! "_id" = None → to_serializable str (Some d) = Some d.
Proof.
  intros Hid. unfold to_serializable. rewrite Hid. by destruct (decide _).
Qed.

(** Serialising what has been serialised changes nothing. *)
Theorem to_serializable_idempotent (doc : option (gmap string V)) :
  to_serializable str (to_serializable str doc) = to_serializable str doc.
Proof.
  destruct doc as [d|]; [|done].
  destruct (d !! "_id") as [v|] eqn:Hid.
  - destruct (to_serializable_renames_id_aux d v Hid) as (d' & -> & Hno & _).
    by apply to_serializable_without_id.
  - rewrite (to_serializable_without_id d Hid).
    by apply to_serializable_without_id.
Qed.

End SerialisationProperties.

(** ** The handlers on the sample shop *)

Section Evaluation.
Import Sample.

(** The scenario of the specification: two widgets at 9.99 cost 19.98
    and leave three in stock. *)
Example checkout_two_widgets :
  checkout shop (cart [line P1 2]) O1 2000
  = (Ok (CheckoutResponse.mk O1 1998), shop_paid).
Proof. vm_compute. reflexivity. Qed.

(** C3, at the defect.  The decrement of the commit phase is not
    conditional on the stock: applied for six widgets to a stock of
    five it leaves minus one.  One request with two lines of three
    widgets each passes validation against a stock of five, line by
    line, and leaves a stock of minus one.  So do two requests for three
    widgets each when both are validated before either commits. *)
Theorem checkout_oversells :
  (∃ products',
     update_one_inc_stock (product shop) P1 (- 6) = Ok products' ∧
     Product.stock <$> products' !! P1 = Some (Has (-1))) ∧
  (∃ resp db',
     checkout shop (cart [line P1 3; line P1 3]) O1 2000 = (Ok resp, db') ∧
     Product.stock <$> product db' !! P1 = Some (Has (-1))) ∧
  (∃ ois1 total1 ois2 total2 products1 products2,
     validate_loop (product shop) [line P1 3] [] f_zero = Ok (ois1, total1) ∧
     validate_loop (product shop) [line P1 3] [] f_zero = Ok (ois2, total2) ∧
     decrement_loop (product shop) [line P1 3] = (products1, None) ∧
     decrement_loop products1 [line P1 3] = (products2, None) ∧
     Product.stock <$> products2 !! P1 = Some (Has (-1))).
Proof.
  split; [|split].
  - eexists. split; [vm_compute; reflexivity|]. vm_compute. reflexivity.
  - eexists _, _. split; [vm_compute; reflexivity|]. vm_compute. reflexivity.
  - eexists _, _, _, _, _, _.
    split; [vm_compute; reflexivity|]. split; [vm_compute; reflexivity|].
    split; [vm_compute; reflexivity|]. split; [vm_compute; reflexivity|].
    vm_compute. reflexivity.
Qed.

Lemma checkout_total_is_rounded_sum_witness :
  ∃ resp db' doc,
    checkout shop (cart [line P1 2]) O1 2000 = (Ok resp, db') ∧
    order db' !! O1 = Some doc ∧
    Order.total (OrderDoc.data doc) = CheckoutResponse.total resp ∧
    CheckoutResponse.total resp =
      f_round2 (sum_subtotals f_zero (Order.items (OrderDoc.data doc))) ∧
    Forall2 (snapshot_of (product shop)) [line P1 2]
      (Order.items (OrderDoc.data doc)) ∧
    Forall (fun oi => OrderItem.subtotal oi =
                      f_mul (OrderItem.price oi) (f_of_int (OrderItem.quantity oi)))
      (Order.items (OrderDoc.data doc)).
Proof.
  apply (checkout_total_is_rounded_sum shop (cart [line P1 2]) O1 2000).
  - constructor; [|constructor].
    exists (OrderItem.mk P1 "Widget" 999 2 1998). vm_compute. reflexivity.
  - reflexivity.
Defined.

Lemma checkout_validation_failure_aborts_witness :
  line P1 6 ∈ [line P1 2; line P1 6] ∧
  validate_line (product shop) (line P1 6) = Raise (InsufficientStock (Some "Widget")) ∧
  ∃ e', checkout shop (cart [line P1 2; line P1 6]) O1 2000 = (Raise e', shop).
Proof.
  assert (line P1 6 ∈ [line P1 2; line P1 6]) as Hin by (right; left).
  assert (validate_line (product shop) (line P1 6)
          = Raise (InsufficientStock (Some "Widget"))) as Hline
    by (vm_compute; reflexivity).
  split; [exact Hin|]. split; [exact Hline|].
  exact (checkout_validation_failure_aborts shop (cart [line P1 2; line P1 6])
           O1 2000 _ _ Hin Hline).
Defined.

Lemma checkout_first_failing_line_witness :
  checkout shop (cart [line P1 2; line "widget" 1; line P2 1]) O1 2000
  = (Raise (HTTPException 400 "Invalid product id: widget"), shop).
Proof.
  refine (proj1 (checkout_first_failing_line shop
                   (cart [line P1 2; line "widget" 1; line P2 1]) O1 2000
                   [line P1 2] (line "widget" 1) [line P2 1] _ _) _).
  - reflexivity.
  - constructor; [|constructor].
    exists (OrderItem.mk P1 "Widget" 999 2 1998). vm_compute. reflexivity.
  - reflexivity.
Defined.

Lemma checkout_commit_witness :
  ∃ db',
    checkout shop (cart [line P1 2]) O1 2000
    = (Ok (CheckoutResponse.mk O1 1998), db') ∧
    Product.stock <$> product db' !! P1 = Some (Has 3) ∧
    Product.in_stock <$> product db' !! P1 = Some (Has true) ∧
    order db' = {[ O1 := two_widgets ]}.
Proof.
  destruct (checkout_commit shop (cart [line P1 2]) O1 2000
              [OrderItem.mk P1 "Widget" 999 2 1998] 1998)
    as (db' & Hok & Hproducts & Horder).
  - vm_compute. reflexivity.
  - reflexivity.
  - exists db'. split; [exact Hok|].
    rewrite (Hproducts P1), Horder. repeat split; vm_compute; reflexivity.
Defined.

Lemma checkout_empty_cart_witness :
  checkout shop (CheckoutRequest.mk [] (Some "Ada") None) O1 2000
  = (Ok (CheckoutResponse.mk O1 0),
     mkDb (product shop)
       (<[O1 := OrderDoc.mk (Order.mk (Some "Ada") None [] 0 "paid") 2000]>
          (order shop))).
Proof.
  exact (checkout_empty_cart shop (Some "Ada") None O1 2000 eq_refl).
Defined.

(** The claim C10 at a line of quantity minus one: [checkout] raises the
    validation error of [OrderItem], the stock stays at five and there
    is no order. *)
Lemma checkout_negative_quantity_raises :
  checkout shop (cart [line P1 (-1)]) O1 2000 = (Raise ValidationError, shop) ∧
  Product.stock <$> product shop !! P1 = Some (Has 5) ∧
  ¬ ∃ resp db', checkout shop (cart [line P1 (-1)]) O1 2000 = (Ok resp, db').
Proof.
  assert (checkout shop (cart [line P1 (-1)]) O1 2000 = (Raise ValidationError, shop))
    as Heq by (vm_compute; reflexivity).
  split; [exact Heq|]. split; [reflexivity|].
  intros (resp & db' & Hok). rewrite Heq in Hok. discriminate.
Qed.

Lemma checkout_rejects_quantity_below_one_witness :
  stock_lt widget (-1) = Ok false ∧
  validate_line (product shop) (line P1 (-1)) = Raise ValidationError ∧
  ∃ e, checkout shop (cart [line P1 (-1)]) O1 2000 = (Raise e, shop).
Proof.
  destruct (checkout_rejects_quantity_below_one shop (cart [line P1 (-1)]) O1 2000
              (line P1 (-1))) as (Hstock & Hline & Habort).
  - left.
  - simpl. lia.
  - split; [apply (Hstock widget 5); [reflexivity | lia]|].
    split; [|exact Habort].
    destruct (Hline P1 widget 5) as (_ & _ & Hbuilt);
      [reflexivity | reflexivity | reflexivity | lia |].
    apply Hbuilt; [discriminate | vm_compute; reflexivity].
Defined.

(** A quantity below the range of the floats: the product of the price
    and the quantity raises before the [OrderItem] is built. *)
Example checkout_quantity_beyond_float :
  checkout shop (cart [line P1 (- 10 ^ 400)]) O1 2000 = (Raise OverflowError, shop).
Proof. vm_compute. reflexivity. Qed.

Lemma update_product_absent_AttributeError_witness :
  update_product shop P2 reprice = (Raise AttributeError, shop).
Proof.
  apply (update_product_absent_AttributeError shop P2 P2 reprice); reflexivity.
Defined.

Lemma update_product_keeps_updated_at_witness :
  ∃ oid prod prod',
    ObjectId_of_str P1 = Some oid ∧
    product shop !! oid = Some prod ∧
    product (update_product shop P1 reprice).2 !! oid = Some prod' ∧
    get (Product.updated_at prod') = get (Product.updated_at prod).
Proof.
  apply (update_product_keeps_updated_at shop P1 reprice true).
  vm_compute. reflexivity.
Defined.

(** The stored timestamp of the widget after the change of price. *)
Example update_product_updated_at :
  Product.updated_at <$> product (update_product shop P1 reprice).2 !! P1
  = Some (Has 1000).
Proof. vm_compute. reflexivity. Qed.

Lemma orders_are_immutable_witness :
  order shop_paid !! O1 = Some two_widgets ∧
  order (serve_all shop_paid
           [PATCH_admin_products P1 reprice;
            POST_checkout (cart [line P1 1]) O1 3000;
            GET_admin_orders]) !! O1
  = Some two_widgets.
Proof.
  assert (order shop_paid !! O1 = Some two_widgets) as Hdoc by reflexivity.
  split; [exact Hdoc|].
  exact (orders_are_immutable shop_paid _ O1 two_widgets Hdoc).
Defined.

End Evaluation.

(** ** Further behaviour on the sample shop *)

Section MoreEvaluation.
Import Sample.

Lemma checkout_Ok_lines_covered_witness :
  Forall (fun item =>
            ∃ oid prod s,
              ObjectId_of_str (CartItem.product_id item) = Some oid ∧
              product market !! oid = Some prod ∧
              Product.stock prod = Has s ∧
              1 ≤ CartItem.quantity item ≤ s)
    [line P1 2; line P2 10].
Proof.
  eapply (checkout_Ok_lines_covered market (cart [line P1 2; line P2 10]) O1 2000).
  vm_compute. reflexivity.
Defined.

Lemma checkout_distinct_products_stock_witness :
  Forall (fun item =>
            ∃ oid prod prod' s,
              ObjectId_of_str (CartItem.product_id item) = Some oid ∧
              product market !! oid = Some prod ∧
              Product.stock prod = Has s ∧
              product (checkout market (cart [line P1 2; line P2 10]) O1 2000).2 !! oid
                = Some prod' ∧
              Product.stock prod' = Has (s - CartItem.quantity item) ∧
              0 ≤ s - CartItem.quantity item)
    [line P1 2; line P2 10].
Proof.
  eapply (checkout_distinct_products_stock market (cart [line P1 2; line P2 10]) O1 2000).
  - vm_compute. reflexivity.
  - apply NoDup_cons. split; [|apply NoDup_singleton].
    intros Hin. apply list_elem_of_singleton in Hin. discriminate.
Defined.

Lemma checkout_Raise_unchanged_witness :
  (checkout shop (cart [line P1 2; line P1 6]) O1 2000).2 = shop ∧
  ∃ pre item post,
    [line P1 2; line P1 6] = pre ++ item :: post ∧
    Forall (fun i => ∃ oi, validate_line (product shop) i = Ok oi) pre ∧
    validate_line (product shop) item = Raise (InsufficientStock (Some "Widget")).
Proof.
  apply (checkout_Raise_unchanged shop (cart [line P1 2; line P1 6]) O1 2000).
  - vm_compute. reflexivity.
  - reflexivity.
Defined.

Lemma checkout_Raise_kinds_witness :
  ∃ item,
    item ∈ [line P1 2; line P3 9] ∧
    (HTTPException 400 "Insufficient stock for Sample"
       = HTTPException 400 ("Invalid product id: " +:+ CartItem.product_id item) ∨
     HTTPException 400 "Insufficient stock for Sample"
       = HTTPException 404 ("Product not found: " +:+ CartItem.product_id item) ∨
     (∃ title, HTTPException 400 "Insufficient stock for Sample"
               = HTTPException 400 ("Insufficient stock for " +:+ py_str title)) ∨
     HTTPException 400 "Insufficient stock for Sample" = TypeError ∨
     HTTPException 400 "Insufficient stock for Sample" = OverflowError ∨
     HTTPException 400 "Insufficient stock for Sample" = ValidationError).
Proof.
  apply (checkout_Raise_kinds market (cart [line P1 2; line P3 9]) O1 2000 _ market).
  - vm_compute. reflexivity.
  - reflexivity.
Defined.

Lemma checkout_order_meets_schema_witness :
  ∃ doc,
    order shop_paid !! O1 = Some doc ∧
    f_ge0 (Order.total (OrderDoc.data doc)) = true ∧
    length (Order.items (OrderDoc.data doc)) = length [line P1 2] ∧
    Forall (fun oi => 1 ≤ OrderItem.quantity oi ∧
                      f_ge0 (OrderItem.price oi) = true ∧
                      f_ge0 (OrderItem.subtotal oi) = true)
      (Order.items (OrderDoc.data doc)).
Proof.
  apply (checkout_order_meets_schema shop (cart [line P1 2]) O1 2000
           (CheckoutResponse.mk O1 1998) shop_paid).
  vm_compute. reflexivity.
Defined.

Lemma update_product_frame_witness :
  ∃ oid prod prod',
    ObjectId_of_str P1 = Some oid ∧
    product market !! oid = Some prod ∧
    product (update_product market P1 reprice).2 !! oid = Some prod' ∧
    Product.title prod' = set_field (ProductUpdate.title reprice) (Product.title prod) ∧
    Product.description prod'
      = set_field (ProductUpdate.description reprice) (Product.description prod) ∧
    Product.price prod' = set_field (ProductUpdate.price reprice) (Product.price prod) ∧
    Product.category prod'
      = set_field (ProductUpdate.category reprice) (Product.category prod) ∧
    Product.stock prod' = set_field (ProductUpdate.stock reprice) (Product.stock prod) ∧
    Product.image_url prod'
      = set_field (ProductUpdate.image_url reprice) (Product.image_url prod) ∧
    Product.in_stock prod'
      = set_field (ProductUpdate.in_stock reprice) (Product.in_stock prod) ∧
    Product.created_at prod' = Product.created_at prod ∧
    Product.updated_at prod'
      = match Product.updated_at prod with
        | Has t => Has t
        | Null | Missing => Null
        end ∧
    (∀ oid', oid' ≠ oid →
       product (update_product market P1 reprice).2 !! oid' = product market !! oid') ∧
    order (update_product market P1 reprice).2 = order market.
Proof.
  apply (update_product_frame market P1 reprice true).
  vm_compute. reflexivity.
Defined.


Lemma update_product_idempotent_witness :
  update_product (update_product market P1 reprice).2 P1 reprice
  = (Ok true, (update_product market P1 reprice).2).
Proof.
  apply (update_product_idempotent market P1 reprice true).
  vm_compute. reflexivity.
Defined.

Lemma update_null_stock_then_checkout_witness :
  checkout (update_product market P1 null_stock).2
    (CheckoutRequest.mk [line P1 1; line P2 1] None None) O1 2000
  = (Raise TypeError, (update_product market P1 null_stock).2).
Proof.
  apply (update_null_stock_then_checkout market P1 null_stock true).
  - vm_compute. reflexivity.
  - reflexivity.
  - reflexivity.
Defined.

Lemma update_null_then_checkout_raises_witness :
  ∃ e, checkout (update_product market P2 null_stock).2
         (cart [line P1 1; line P2 1]) O1 2000
       = (Raise e, (update_product market P2 null_stock).2).
Proof.
  apply (update_null_then_checkout_raises market P2 null_stock true _ _ O1 2000
           (line P2 1)).
  - vm_compute. reflexivity.
  - right; left. reflexivity.
  - right; left.
  - reflexivity.
Defined.

Lemma update_price_then_checkout_witness :
  CheckoutResponse.total
    (CheckoutResponse.mk (F:=Z) O1 3897)
  = f_round2 (f_add f_zero (f_mul 1299 (f_of_int 3))).
Proof.
  apply (update_price_then_checkout market P1 reprice true
           (update_product market P1 reprice).2 1299 (line P1 3) None None O1 2000
           (CheckoutResponse.mk O1 3897)
           (checkout (update_product market P1 reprice).2
              (CheckoutRequest.mk [line P1 3] None None) O1 2000).2).
  - vm_compute. reflexivity.
  - reflexivity.
  - reflexivity.
  - vm_compute. reflexivity.
Defined.

Lemma checkout_missing_price_witness :
  CheckoutResponse.total (CheckoutResponse.mk (F:=Z) O1 0)
  = f_round2 (f_add f_zero (f_mul (f_of_int 0) (f_of_int 2))).
Proof.
  apply (checkout_missing_price market (line P3 2) None None O1 2000 P3 sample
           (CheckoutResponse.mk O1 0)
           (checkout market (CheckoutRequest.mk [line P3 2] None None) O1 2000).2).
  - reflexivity.
  - reflexivity.
  - reflexivity.
  - vm_compute. reflexivity.
Defined.

Lemma update_product_commute_witness :
  ∃ db1',
    update_product market P2 restock = (Ok true, db1') ∧
    update_product db1' P1 reprice
    = (Ok true, (update_product (update_product market P1 reprice).2 P2 restock).2).
Proof.
  apply (update_product_commute market P1 reprice P2 restock true true
           (update_product market P1 reprice).2).
  - vm_compute. discriminate.
  - vm_compute. reflexivity.
  - vm_compute. reflexivity.
Defined.

Lemma update_product_twice_witness :
  update_product market P1 (merge_updates restock reprice)
  = (Ok true, (update_product (update_product market P1 reprice).2 P1 restock).2).
Proof.
  apply (update_product_twice market P1 reprice restock true true
           (update_product market P1 reprice).2).
  - vm_compute. reflexivity.
  - vm_compute. reflexivity.
Defined.

Lemma checkout_cart_order_irrelevant_witness :
  ∃ resp' db2,
    checkout market (CheckoutRequest.mk [line P2 1; line P1 2] None None) O1 2000
    = (Ok resp', db2) ∧
    product db2
    = product (checkout market (CheckoutRequest.mk [line P1 2; line P2 1] None None)
                 O1 2000).2.
Proof.
  apply (checkout_cart_order_irrelevant market [line P1 2; line P2 1]
           [line P2 1; line P1 2] None None O1 2000 (CheckoutResponse.mk O1 2248)).
  - apply perm_swap.
  - vm_compute. reflexivity.
Defined.

Lemma checkout_twice_as_one_witness :
  ∃ resp db',
    checkout market (CheckoutRequest.mk ([line P1 2] ++ [line P1 3; line P2 1]) None None)
      O1 4000
    = (Ok resp, db') ∧
    product db'
    = product (checkout (checkout market (cart [line P1 2]) O1 2000).2
                 (cart [line P1 3; line P2 1]) P3 3000).2.
Proof.
  apply (checkout_twice_as_one market [line P1 2] [line P1 3; line P2 1]
           None None None None None None O1 P3 O1 2000 3000 4000
           (CheckoutResponse.mk O1 1998) (CheckoutResponse.mk P3 3247)
           (checkout market (cart [line P1 2]) O1 2000).2).
  - vm_compute. reflexivity.
  - vm_compute. reflexivity.
  - reflexivity.
Defined.

Lemma to_serializable_renames_id_witness :
  ∃ d',
    to_serializable print (Some widget_doc) = Some d' ∧
    d' !! "_id" = None ∧
    d' !! "id" = Some "str:oid:64b7f0a1c2d3e4f5a6b7c8d9" ∧
    ∀ k, k ≠ "_id" → k ≠ "id" → d' !! k = widget_doc !! k.
Proof.
  apply (to_serializable_renames_id print widget_doc "oid:64b7f0a1c2d3e4f5a6b7c8d9").
  reflexivity.
Defined.

End MoreEvaluation.
